(** * abagen.mouse: criteria fragments, the query executor and gene lookups

    A shallow embedding of [abagen/mouse/utils.py] and [abagen/mouse/gene.py].
    Python values are algebraic data, dictionaries are finite maps, and the
    effects of a call (lines printed, warnings, HTTP requests) are recorded,
    in order, in a trace that is kept when an exception is raised. *)

From Stdlib Require Import ZArith String Ascii List Lia.
From Stdlib Require Import DecimalString DecimalZ DecimalPos.
From stdpp Require Import base option gmap strings list.

Set Warnings "-register-all".
Local Open Scope string_scope.
Local Open Scope Z_scope.
Local Open Scope list_scope.

(** ** Python values, exceptions and effects *)

Declare Scope py_scope.
Delimit Scope py_scope with py.

Module Py.

(** The scalars an identifying parameter holds: [int] or [str]. *)
Inductive atom : Type :=
| AInt (z : Z)
| AStr (s : string).

(** An identifying parameter of [utils.py]: a scalar or a list of scalars
    ([None] is the [None] of [option]). *)
Inductive arg : Type :=
| Scalar (a : atom)
| List (l : list atom).

(** A parameter that is a [str] or a list of [str]. *)
Inductive strs : Type :=
| One (s : string)
| Many (l : list string).

(** What an attribute extraction returns: [int], [str] or [None]. *)
Inductive value : Type :=
| VInt (z : Z)
| VStr (s : string)
| VNone.

(** Parsed JSON, as [json.loads] builds it (floats are left out). *)
Inductive json : Type :=
| JNull
| JBool (b : bool)
| JInt (z : Z)
| JStr (s : string)
| JList (l : list json)
| JObj (o : gmap string json).

Inductive exn : Type :=
| TypeError (msg : string)
| ValueError (msg : string)
| AttributeError (msg : string)
| KeyError (key : string)
| IndexError
| ConnectionError
| HTTPError (status : Z)
| JSONDecodeError
| ParseError.

Inductive result (A : Type) : Type :=
| Raised (e : exn)
| Returned (a : A).
Arguments Raised {A} e.
Arguments Returned {A} a.

Inductive event : Type :=
| Print (line : string)
| Warn (msg : string)
| HttpGet (url : string).

(** A computation: the events it caused, oldest first, and how it ended. *)
Definition M (A : Type) : Type := (list event * result A)%type.

Definition ret {A} (a : A) : M A := ([], Returned a).
Definition raise {A} (e : exn) : M A := ([], Raised e).
Definition emit (ev : event) : M unit := ([ev], Returned tt).
Definition lift {A} (r : result A) : M A := ([], r).

Definition bind {A B} (m : M A) (k : A -> M B) : M B :=
  match m with
  | (t, Raised e) => (t, Raised e)
  | (t, Returned a) => let '(t', r) := k a in (t ++ t', r)
  end.

(** [try: m except ...: h e]; [h e = None] when no clause matches [e]. *)
Definition catch {A} (m : M A) (h : exn -> option (M A)) : M A :=
  match m with
  | (t, Raised e) =>
      match h e with
      | Some k => let '(t', r) := k in (t ++ t', r)
      | None => (t, Raised e)
      end
  | (t, Returned a) => (t, Returned a)
  end.

Definition events {A} (m : M A) : list event := fst m.
Definition outcome {A} (m : M A) : result A := snd m.

Notation "x <- m ;; k" := (bind m (fun x => k))
  (at level 100, m at next level, right associativity) : py_scope.
Notation "m ;;; k" := (bind m (fun _ => k))
  (at level 100, right associativity) : py_scope.

(** [str(z)] for an [int]. *)
Definition str_int (z : Z) : string := NilZero.string_of_int (Z.to_int z).

(** [str(a)], which is also what a [{}] field of [str.format] inserts. *)
Definition str (a : atom) : string :=
  match a with
  | AInt z => str_int z
  | AStr s => s
  end.

(** [sep.join(l)] *)
Definition join (sep : string) (l : list string) : string := String.concat sep l.

(** [x in l] for a list of strings. *)
Definition mem (x : string) (l : list string) : bool := existsb (String.eqb x) l.

(** *** [int(text)] on ASCII text

    Digits and blanks outside ASCII, and the limit some interpreters put on
    the number of digits, are not modelled. *)

Definition code (c : ascii) : Z := Z.of_N (N_of_ascii c).

(** The ASCII characters [str.isspace] accepts. *)
Definition is_space (c : ascii) : bool :=
  ((9 <=? code c) && (code c <=? 13)) || ((28 <=? code c) && (code c <=? 32)).

Definition is_digit (c : ascii) : bool := (48 <=? code c) && (code c <=? 57).

Fixpoint lstrip (s : string) : string :=
  match s with
  | String c r => if is_space c then lstrip r else s
  | EmptyString => EmptyString
  end.

(** [s.strip()] *)
Definition strip (s : string) : string :=
  String.rev (lstrip (String.rev (lstrip s))).

(** The blanks [int] skips around an ASCII literal: those of C's [isspace],
    which are fewer than the ones [str.isspace] accepts. *)
Definition is_c_space (c : ascii) : bool :=
  ((9 <=? code c) && (code c <=? 13)) || (code c =? 32).

Fixpoint skip_spaces (s : string) : string :=
  match s with
  | String c r => if is_c_space c then skip_spaces r else s
  | EmptyString => EmptyString
  end.

(** The literal without the blanks before and after it. *)
Definition trim_spaces (s : string) : string :=
  String.rev (skip_spaces (String.rev (skip_spaces s))).

(** Decimal digits, single underscores allowed between two digits;
    [after_digit] tells whether the character just read was a digit. *)
Fixpoint digits (acc : Z) (after_digit : bool) (s : string) : option Z :=
  match s with
  | EmptyString => if after_digit then Some acc else None
  | String c r =>
      if is_digit c then digits (10 * acc + (code c - 48)) true r
      else if Ascii.eqb c "_" then
        if after_digit then digits acc false r else None
      else None
  end.

(** A base-10 literal: surrounding whitespace, an optional sign, digits. *)
Definition parse_int (s : string) : option Z :=
  match trim_spaces s with
  | String "-" r => Z.opp <$> digits 0 false r
  | String "+" r => digits 0 false r
  | r => digits 0 false r
  end.

(** [int(x)] where [x] is a [str] or [None]. *)
Definition int (x : option string) : result Z :=
  match x with
  | None =>
      Raised (TypeError
        "int() argument must be a string, a bytes-like object or a real number, not 'NoneType'")
  | Some s =>
      match parse_int s with
      | Some z => Returned z
      | None => Raised (ValueError ("invalid literal for int() with base 10: " +:+ s))
      end
  end.

(** *** [urllib.parse.quote_plus] on the bytes of a string *)

Definition is_unreserved (c : ascii) : bool :=
  is_digit c
  || ((65 <=? code c) && (code c <=? 90))
  || ((97 <=? code c) && (code c <=? 122))
  || mem (String c "") ["_"; "."; "-"; "~"].

Definition hex_digit (n : Z) : string :=
  match String.get (Z.to_nat n) "0123456789ABCDEF" with
  | Some c => String c ""
  | None => ""
  end.

Definition percent (c : ascii) : string :=
  "%" +:+ hex_digit (code c / 16) +:+ hex_digit (code c mod 16).

Fixpoint quote_plus (s : string) : string :=
  match s with
  | EmptyString => ""
  | String c r =>
      (if is_unreserved c then String c ""
       else if Ascii.eqb c " " then "+"
       else percent c) +:+ quote_plus r
  end.

(** *** JSON values as Python objects *)

(** [bool(j)] *)
Definition truthy (j : json) : bool :=
  match j with
  | JNull => false
  | JBool b => b
  | JInt z => negb (z =? 0)
  | JStr s => negb (String.eqb s "")
  | JList l => match l with [] => false | _ => true end
  | JObj o => negb (Nat.eqb (size o) 0)
  end.

(** [j == n] for an [int] [n]; a [bool] compares as 0 or 1. *)
Definition eq_int (j : json) (n : Z) : bool :=
  match j with
  | JInt z => z =? n
  | JBool b => (if b then 1 else 0) =? n
  | _ => false
  end.

(** [j[key]] *)
Definition getitem (j : json) (key : string) : M json :=
  match j with
  | JObj o =>
      match o !! key with
      | Some v => ret v
      | None => raise (KeyError key)
      end
  | _ => raise (TypeError "object is not subscriptable with a str")
  end.

(** [j.get(key, default)] *)
Definition get (j : json) (key : string) (default : json) : M json :=
  match j with
  | JObj o =>
      match o !! key with
      | Some v => ret v
      | None => ret default
      end
  | _ => raise (AttributeError "object has no attribute 'get'")
  end.

(** *** The network *)

(** What the server answers to a GET: no answer at all, or a status code
    and a body; the body is held as the value its parser builds, [None]
    when it does not parse. *)
Inductive reply (A : Type) : Type :=
| Unreachable
| Reply (status_code : Z) (content : option A).
Arguments Unreachable {A}.
Arguments Reply {A} status_code content.

Record response (A : Type) : Type := Response {
  status_code : Z;
  content : option A
}.
Arguments Response {A} status_code content.
Arguments status_code {A} r.
Arguments content {A} r.

(** [requests.get(url)] *)
Definition requests_get {A} (net : string -> reply A) (url : string) : M (response A) :=
  bind (emit (HttpGet url)) (fun _ =>
    match net url with
    | Unreachable => raise ConnectionError
    | Reply st c => ret (Response st c)
    end).

(** [response.raise_for_status()] *)
Definition raise_for_status {A} (r : response A) : M unit :=
  if (400 <=? status_code r) && (status_code r <? 600)
  then raise (HTTPError (status_code r))
  else ret tt.

(** [json.loads(response.content)] *)
Definition json_loads (r : response json) : M json :=
  match content r with
  | Some j => ret j
  | None => raise JSONDecodeError
  end.

End Py.
Import Py.
Local Open Scope py_scope.

(** ** abagen/mouse/utils.py *)

Module utils.

(** The variables the [for] loop of [_coerce_inputs] assigns.  [param]
    holds [None], a scalar, or (after a list was joined) a [str]. *)
Record bindings : Type := Bindings {
  criteria : string;
  query : string;
  param : option atom
}.

(** ["'{}'".format(f)] *)
Definition quoted (f : atom) : atom := AStr ("'" +:+ str f +:+ "'").

(** The body of [if param is not None:], up to the [break]. *)
Definition select (criteria : string) (query : string) (param : arg) : bindings :=
  match param with
  | List l =>
      let l := if mem criteria ["acronym"; "name"] then map quoted l else l in
      Bindings criteria "in" (Some (AStr (join "," (map str l))))
  | Scalar a => Bindings criteria query (Some a)
  end.

(** [for criteria, param in zip([...], params): ...]; [st] holds the
    bindings before the iteration. *)
Fixpoint scan (items : list (string * option arg)) (st : bindings) : bindings :=
  match items with
  | [] => st
  | (criteria, None) :: rest => scan rest (Bindings criteria (query st) None)
  | (criteria, Some p) :: _ => select criteria (query st) p
  end.

Definition _coerce_inputs (id acronym name : option arg) : result string :=
  let params := [id; acronym; name] in
  (* [criteria] and [param] are unbound before the loop; the zip has three
     items, so the loop binds both. *)
  let st := scan (zip ["id"; "acronym"; "name"] params) (Bindings "" "eq" None) in
  match param st with
  | None =>
      Raised (TypeError
        "At least one of ['id', 'acronym', 'name'] must be specified.")
  | Some p =>
      Returned ("[" +:+ criteria st +:+ "$" +:+ query st +:+ str p +:+ "]")
  end.

(** One iteration of the loop that appends [key=value&] to the URL. *)
Definition add_param (url : string) (item : string * option strs) : string :=
  match item with
  | (key, Some value) =>
      let value := match value with Many l => join "," l | One v => v end in
      url +:+ key +:+ "=" +:+ quote_plus value +:+ "&"
  | (_, None) => url
  end.

(** The URL [_make_api_query] requests. *)
Definition query_url (dtype : string) (includes criteria attributes : option strs)
    (suffix : option string) : string :=
  let url := "http://api.brain-map.org/api/v2/data/" +:+ dtype +:+ "/query.json?" in
  let params := [includes; criteria; attributes] in
  let url := fold_left add_param (zip ["include"; "criteria"; "only"] params) url in
  match suffix with
  | Some suffix => url +:+ suffix
  | None => url
  end.

Definition invalid_query (url : string) : string :=
  "Provided query " +:+ url +:+ " is invalid. Please check parameters and try again.".

Definition no_results (url : string) : string :=
  "Provided query " +:+ url +:+ " returned no results. Please check parameters and try again.".

(** The part of [_make_api_query] that follows [json.loads]. *)
Definition check_envelope (url : string) (info : json) : M json :=
  success <- getitem info "success" ;;
  if negb (truthy success) then raise (ValueError (invalid_query url))
  else
    total_rows <- getitem info "total_rows" ;;
    (if eq_int total_rows 0 then emit (Warn (no_results url)) else ret tt) ;;;
    get info "msg" (JList []).

Definition _make_api_query (net : string -> reply json) (dtype : string)
    (includes criteria attributes : option strs) (suffix : option string)
    (verbose : bool) : M json :=
  let url := query_url dtype includes criteria attributes suffix in
  (if verbose then emit (Print ("Querying " +:+ url +:+ "...")) else ret tt) ;;;
  response <- requests_get net url ;;
  raise_for_status response ;;;
  info <- json_loads response ;;
  check_envelope url info.

End utils.

(** ** xml.etree.ElementTree *)

Module ET.

Inductive Element : Type :=
| mkElement (tag : string) (attrib : gmap string string)
    (text : option string) (children : list Element).

Definition tag (e : Element) : string :=
  match e with mkElement t _ _ _ => t end.
Definition attrib (e : Element) : gmap string string :=
  match e with mkElement _ a _ _ => a end.
Definition text (e : Element) : option string :=
  match e with mkElement _ _ x _ => x end.
Definition children (e : Element) : list Element :=
  match e with mkElement _ _ _ c => c end.

(** [path.split("/")]; [cur] is the step being read. *)
Fixpoint split_path (path : string) (cur : string) : list string :=
  match path with
  | EmptyString => [cur]
  | String c r =>
      if Ascii.eqb c "/" then cur :: split_path r ""
      else split_path r (cur +:+ String c "")
  end.

(** One step of a path: the children, in document order, of the elements
    selected so far whose tag is [name]. *)
Definition select_children (name : string) (selected : list Element) : list Element :=
  flat_map (fun e => List.filter (fun c => String.eqb (tag c) name) (children e)) selected.

(** [root.findall(path)] for a path of plain tags separated by [/].  A
    step is compared with the tags as it is written.  The operators of
    ElementPath (the wildcard, an empty step, [.], [..], [//], namespaces and
    predicates) and the exceptions it raises on a malformed path are not
    modelled: the function stands for [findall] only on paths whose steps
    are plain tag names, as the paths of [gene.py] are when the attribute
    is one. *)
Definition findall (root : Element) (path : string) : list Element :=
  fold_left (fun selected name => select_children name selected)
    (split_path path "") [root].

(** [ET.fromstring(r.content)] *)
Definition fromstring (r : response Element) : M Element :=
  match content r with
  | Some root => ret root
  | None => raise ParseError
  end.

(** [root.attrib[key]] *)
Definition attrib_getitem (root : Element) (key : string) : M string :=
  match attrib root !! key with
  | Some v => ret v
  | None => raise (KeyError key)
  end.

End ET.
Import ET.

(** ** abagen/mouse/gene.py *)

Module gene.

Definition URL_PREFIX : string :=
  "http://api.brain-map.org/api/v2/data/" +:+
  "SectionDataSet/query.xml?" +:+
  "criteria=products[id$eq1],".

Definition URL_INCLUDE : string := "&include=genes,plane_of_section".

Definition GENE_ATTRIBUTES : list string :=
  [ "acronym";
    "alias-tags";
    "chromosome-id";
    "ensembl-id";
    "entrez-id";
    "genomic-reference-update-id";
    "homologene-id";
    "id";
    "legacy-ensembl-gene-id";
    "name";
    "organism-id";
    "original-name";
    "original-symbol";
    "reference-genome-id";
    "sphinx-id";
    "version-status" ].

(** The [if]/[elif] chain that picks the query, or raises. *)
Definition gene_query_url (gene_id gene_acronym gene_name : option atom) : M string :=
  match gene_id with
  | Some gene_id =>
      ret (URL_PREFIX +:+ ("genes[id$eq" +:+ str gene_id +:+ "]") +:+ URL_INCLUDE)
  | None =>
      match gene_acronym with
      | Some gene_acronym =>
          ret (URL_PREFIX +:+ ("genes[acronym$eq'" +:+ str gene_acronym +:+ "']")
               +:+ URL_INCLUDE)
      | None =>
          match gene_name with
          | Some gene_name =>
              ret (URL_PREFIX +:+ ("genes[name$eq'" +:+ str gene_name +:+ "']")
                   +:+ URL_INCLUDE)
          | None =>
              raise (TypeError "at least one gene identifier should be specified")
          end
      end
  end.

Definition check_gene_validity (net : string -> reply Element)
    (gene_id gene_acronym gene_name : option atom) : M (bool * Element) :=
  query_url <- gene_query_url gene_id gene_acronym gene_name ;;
  emit (Print ("access " +:+ query_url +:+ "...")) ;;;
  r <- requests_get net query_url ;;
  root <- fromstring r ;;
  total_rows <- attrib_getitem root "total_rows" ;;
  if negb (String.eqb total_rows "0") then ret (true, root)
  else ret (false, root).

Definition gene_path (attr : string) : string :=
  "section-data-sets/section-data-set/" +:+ "genes/gene/" +:+ attr.

Definition _get_single_gene_attribute (root : Element) (attr : string) : result value :=
  let item := findall root (gene_path attr) in
  match item with
  | [] => Raised (AttributeError ("There is no gene attribute called " +:+ attr))
  | item0 :: _ =>
      match int (text item0) with
      | Returned z => Returned (VInt z)
      | Raised (ValueError _) =>
          Returned (match text item0 with Some s => VStr s | None => VNone end)
      | Raised (TypeError _) => Returned VNone
      | Raised e => Raised e
      end
  end.

(** What [get_gene_info] returns: one value, or a [dict] of them. *)
Inductive info : Type :=
| Single (v : value)
| Mapping (d : gmap string value).

Definition skipped (attr : string) : string :=
  "There is no attribute called " +:+ attr +:+ ". Skipped.".

(** [for attr in attr_list: try: ... except AttributeError: ...] *)
Fixpoint collect (root : Element) (attr_list : list string)
    (gene_info : gmap string value) : M (gmap string value) :=
  match attr_list with
  | [] => ret gene_info
  | attr :: rest =>
      gene_info <-
        catch (v <- lift (_get_single_gene_attribute root attr) ;;
               ret (<[attr := v]> gene_info))
              (fun e =>
                 match e with
                 | AttributeError _ =>
                     Some (emit (Print (skipped attr)) ;;; ret gene_info)
                 | _ => None
                 end) ;;
      collect root rest gene_info
  end.

(** The identifier the error message of [get_gene_info] names:
    [[item for item in [...] if item is not None][0]]. *)
Definition first_given (items : list (option atom)) : M atom :=
  match omap (fun item => item) items with
  | item :: _ => ret item
  | [] => raise IndexError
  end.

Definition invalid_gene (item : atom) : string :=
  "Gene " +:+ str item +:+ " is invalid. Try another gene.".

(** [attributes == 'all'] *)
Definition is_all (attributes : strs) : bool :=
  match attributes with
  | One s => String.eqb s "all"
  | Many _ => false
  end.

Definition get_gene_info (net : string -> reply Element)
    (gene_id gene_acronym gene_name : option atom) (attributes : strs) : M info :=
  checked <- check_gene_validity net gene_id gene_acronym gene_name ;;
  let '(validity, root) := checked in
  (if negb validity then
     item <- first_given [gene_id; gene_acronym; gene_name] ;;
     raise (ValueError (invalid_gene item))
   else ret tt) ;;;
  let attr_list := if is_all attributes then Many GENE_ATTRIBUTES else attributes in
  match attr_list with
  | Many attr_list =>
      gene_info <- collect root attr_list ∅ ;;
      ret (Mapping gene_info)
  | One attr =>
      (* not a list: [attr_list] is [attributes] itself *)
      v <- lift (_get_single_gene_attribute root attr) ;;
      ret (Single v)
  end.

End gene.

(** ** Criteria fragments in closed form *)

Module fragments.

Definition is_string_field (field : string) : bool := mem field ["acronym"; "name"].

Definition quote (s : string) : string := "'" +:+ s +:+ "'".

(** The fragment the code builds for the selected field: a list is joined
    with every element quoted when the field is a string field; a scalar
    is inserted as it is. *)
Definition emitted (field : string) (p : arg) : string :=
  match p with
  | List l =>
      let member a := if is_string_field field then quote (str a) else str a in
      "[" +:+ field +:+ "$in" +:+ join "," (map member l) +:+ "]"
  | Scalar a => "[" +:+ field +:+ "$eq" +:+ str a +:+ "]"
  end.

(** The fragment as the specification words it: in a list every string
    element is quoted and every number is bare; a scalar is quoted exactly
    when the field is a string field. *)
Definition specified (field : string) (p : arg) : string :=
  match p with
  | List l =>
      let member a := match a with AStr s => quote s | AInt z => str_int z end in
      "[" +:+ field +:+ "$in" +:+ join "," (map member l) +:+ "]"
  | Scalar a =>
      "[" +:+ field +:+ "$eq"
      +:+ (if is_string_field field then quote (str a) else str a) +:+ "]"
  end.

End fragments.

(** ** Sample answers of the server *)

Module samples.

(** A successful JSON envelope without records. *)
Definition empty_envelope (total_rows : json) : gmap string json :=
  <["success" := JBool true]>
    (<["total_rows" := total_rows]> (<["msg" := JList []]> ∅)).

(** A server that gives the same answer to every request. *)
Definition answer {A} (body : A) : string -> reply A :=
  fun _ => Reply 200 (Some body).

Definition leaf (tag : string) (text : option string) : Element :=
  mkElement tag ∅ text [].

Definition data_set (gene : Element) : Element :=
  mkElement "section-data-set" ∅ None [mkElement "genes" ∅ None [gene]].

Definition Pdyn : Element :=
  mkElement "gene" ∅ None
    [ leaf "acronym" (Some "Pdyn");
      leaf "alias-tags" None;
      leaf "id" (Some "18376");
      leaf "name" (Some " prodynorphin ") ].


(** [<Response total_rows=...>] with one data set per gene. *)
Definition Response_of (total_rows : string) (genes : list Element) : Element :=
  mkElement "Response" (<["total_rows" := total_rows]> ∅) None
    [mkElement "section-data-sets" ∅ None (map data_set genes)].

End samples.

(** ** Observations on traces and strings *)

Module observe.

(** The URLs a trace requests, oldest first. *)
Fixpoint requested (t : list event) : list string :=
  match t with
  | [] => []
  | HttpGet url :: t => url :: requested t
  | _ :: t => requested t
  end.

(** The messages a trace warns with, oldest first. *)
Fixpoint warned (t : list event) : list string :=
  match t with
  | [] => []
  | Warn msg :: t => msg :: warned t
  | _ :: t => warned t
  end.

(** Every character of [s] satisfies [P]. *)
Fixpoint all_chars (P : ascii -> bool) (s : string) : bool :=
  match s with
  | EmptyString => true
  | String c r => P c && all_chars P r
  end.

(** The characters an escaped value is made of. *)
Definition is_url_safe (c : ascii) : bool :=
  is_unreserved c || Ascii.eqb c "+" || Ascii.eqb c "%".

(** The characters of a decimal numeral. *)
Definition is_numeral (c : ascii) : bool := is_digit c || Ascii.eqb c "-".

(** The number a decimal numeral denotes, read after the digits of [acc]. *)
Fixpoint decimal_value (acc : Z) (d : Decimal.uint) : Z :=
  match d with
  | Decimal.Nil => acc
  | Decimal.D0 d => decimal_value (10 * acc) d
  | Decimal.D1 d => decimal_value (10 * acc + 1) d
  | Decimal.D2 d => decimal_value (10 * acc + 2) d
  | Decimal.D3 d => decimal_value (10 * acc + 3) d
  | Decimal.D4 d => decimal_value (10 * acc + 4) d
  | Decimal.D5 d => decimal_value (10 * acc + 5) d
  | Decimal.D6 d => decimal_value (10 * acc + 6) d
  | Decimal.D7 d => decimal_value (10 * acc + 7) d
  | Decimal.D8 d => decimal_value (10 * acc + 8) d
  | Decimal.D9 d => decimal_value (10 * acc + 9) d
  end.

(** The path of the gene records in a response. *)
Definition genes_path : string := "section-data-sets/section-data-set/genes/gene".

(** The base of every URL of [_make_api_query]. *)
Definition api (dtype : string) : string :=
  "http://api.brain-map.org/api/v2/data/" +:+ dtype +:+ "/query.json?".

(** The text of a parameter that is a string or a list of strings: a list
    is joined with commas. *)
Definition joined (value : strs) : string :=
  match value with
  | Many l => join "," l
  | One v => v
  end.

(** What a parameter adds to the URL: nothing when it is [None], else
    [key=value&] with the value escaped by [quote_plus]. *)
Definition escaped_part (key : string) (value : option strs) : string :=
  match value with
  | None => ""
  | Some v => key +:+ "=" +:+ quote_plus (joined v) +:+ "&"
  end.

(** The characters of a plain tag name. *)
Definition is_tag_char (c : ascii) : bool :=
  is_digit c
  || ((65 <=? code c) && (code c <=? 90))
  || ((97 <=? code c) && (code c <=? 122))
  || Ascii.eqb c "-" || Ascii.eqb c "_".

(** A name that ElementPath reads as one tag: not empty, and made of
    letters, digits, [-] and [_] only.  For such a name the last step of the
    path selects the children with that tag and [findall] cannot fail; the
    names of [GENE_ATTRIBUTES] are of this kind. *)
Definition plain_tag (name : string) : bool :=
  negb (String.eqb name "") && all_chars is_tag_char name.

End observe.

(** ** More sample answers *)

Module cases.

(** A server that gives the reply [r] to every request. *)
Definition always {A} (r : reply A) : string -> reply A := fun _ => r.

(** An envelope that reports a rejected query and has no [total_rows]. *)
Definition rejected : gmap string json := <["success" := JBool false]> ∅.

(** [<Response total_rows="0"><section-data-sets/></Response>] *)
Definition no_rows : Element :=
  mkElement "Response" (<["total_rows" := "0"]> ∅) None
    [mkElement "section-data-sets" ∅ None []].

(** A root without attributes. *)
Definition bare : Element := mkElement "Response" ∅ None [].

End cases.

(** * Properties *)

Import utils gene fragments samples observe cases.

(** ** The criteria builder *)

Example coerce_id5 :
  _coerce_inputs (Some (Scalar (AInt 5))) None None = Returned "[id$eq5]".
Proof. reflexivity. Qed.

Example coerce_acronym_list :
  _coerce_inputs None (Some (List [AStr "SSp"; AStr "MOp"])) None
  = Returned "[acronym$in'SSp','MOp']".
Proof. reflexivity. Qed.

Lemma select_emitted field q p :
  q = "eq" ->
  let st := select field q p in
  criteria st = field /\
  exists v, param st = Some v /\
    "[" +:+ field +:+ "$" +:+ query st +:+ str v +:+ "]" = emitted field p.
Proof.
  intros ->. destruct p as [a | l]; split; try reflexivity.
  - exists a. split; reflexivity.
  - unfold select, emitted, is_string_field.
    destruct (mem field ["acronym"; "name"]); eexists; (split; [reflexivity |]);
      cbn [query]; rewrite ?map_map; reflexivity.
Qed.

Lemma emitted_strings field ss :
  is_string_field field = true ->
  emitted field (List (map AStr ss)) = specified field (List (map AStr ss)).
Proof. intros H. simpl. rewrite H, !map_map. reflexivity. Qed.

Lemma emitted_numbers field zs :
  is_string_field field = false ->
  emitted field (List (map AInt zs)) = specified field (List (map AInt zs)).
Proof. intros H. simpl. rewrite H, !map_map. reflexivity. Qed.

(** C1 (as the code has it).  The selected parameter becomes a fragment
    whose quoting follows the field, not the element: a list gives a
    membership fragment with every element quoted for [acronym] and [name]
    and bare for [id]; a scalar gives an equality fragment that is never
    quoted.  For a list of strings under [acronym] or [name], and a list of
    numbers under [id], this is the fragment the specification describes. *)
Theorem coerce_inputs_fragment (p : arg) (acronym name : option arg) :
  (_coerce_inputs (Some p) acronym name = Returned (emitted "id" p) /\
   _coerce_inputs None (Some p) name = Returned (emitted "acronym" p) /\
   _coerce_inputs None None (Some p) = Returned (emitted "name" p)) /\
  (forall zs : list Z,
     _coerce_inputs (Some (List (map AInt zs))) acronym name
     = Returned (specified "id" (List (map AInt zs)))) /\
  (forall ss : list string,
     _coerce_inputs None (Some (List (map AStr ss))) name
     = Returned (specified "acronym" (List (map AStr ss))) /\
     _coerce_inputs None None (Some (List (map AStr ss)))
     = Returned (specified "name" (List (map AStr ss)))).
Proof.
  assert (Hsel : forall field q, q = "eq" ->
            match param (select field q p) with
            | None => Raised (TypeError
                "At least one of ['id', 'acronym', 'name'] must be specified.")
            | Some v => Returned ("[" +:+ criteria (select field q p) +:+ "$"
                                  +:+ query (select field q p) +:+ str v +:+ "]")
            end = Returned (emitted field p)).
  { intros field q Hq.
    destruct (select_emitted field q p Hq) as (Hc & v & Hv & Hfrag).
    rewrite Hv, Hc. f_equal. exact Hfrag. }
  split; [| split].
  - repeat split; unfold _coerce_inputs; simpl; apply Hsel; reflexivity.
  - intros zs. unfold _coerce_inputs; simpl. rewrite !map_map. reflexivity.
  - intros ss. split; unfold _coerce_inputs; simpl; rewrite !map_map; reflexivity.
Qed.

(** C1 (as the specification has it) fails: a scalar acronym is not quoted. *)
Lemma coerce_inputs_scalar_unquoted :
  _coerce_inputs None (Some (Scalar (AStr "SSp"))) None = Returned "[acronym$eqSSp]" /\
  specified "acronym" (Scalar (AStr "SSp")) = "[acronym$eq'SSp']" /\
  _coerce_inputs None (Some (Scalar (AStr "SSp"))) None
  <> Returned (specified "acronym" (Scalar (AStr "SSp"))).
Proof. repeat split. discriminate. Qed.

(** C10.  An empty list is a supplied parameter: no [TypeError], and the
    fragment is a membership test without members. *)
Theorem coerce_inputs_empty_list (acronym name : option arg) :
  _coerce_inputs (Some (List [])) acronym name = Returned "[id$in]" /\
  _coerce_inputs None (Some (List [])) name = Returned "[acronym$in]" /\
  _coerce_inputs None None (Some (List [])) = Returned "[name$in]".
Proof. repeat split. Qed.

(** C3.  With [id], [acronym] and [name] all absent the criteria builder,
    the gene validator and the gene lookup raise [TypeError]; the trace of
    the two that have effects is empty, so nothing was printed and no
    request was sent before the failure. *)
Theorem all_absent_rejected :
  _coerce_inputs None None None
  = Raised (TypeError "At least one of ['id', 'acronym', 'name'] must be specified.") /\
  (forall net,
     check_gene_validity net None None None
     = ([], Raised (TypeError "at least one gene identifier should be specified"))) /\
  (forall net attributes,
     get_gene_info net None None None attributes
     = ([], Raised (TypeError "at least one gene identifier should be specified"))).
Proof. repeat split. Qed.


(** ** The query executor *)

Section executor.

Variable net : string -> reply json.
Variables (dtype : string) (includes criteria attributes : option strs).
Variables (suffix : option string) (verbose : bool).

Local Abbreviation url := (query_url dtype includes criteria attributes suffix).
Local Abbreviation preamble :=
  (if verbose then [Print ("Querying " +:+ url +:+ "...")] else []).
Local Abbreviation run :=
  (_make_api_query net dtype includes criteria attributes suffix verbose).

Lemma check_envelope_run (o : gmap string json) (success : bool) (total_rows : json) :
  o !! "success" = Some (JBool success) ->
  o !! "total_rows" = Some total_rows ->
  check_envelope url (JObj o)
  = if success
    then (if eq_int total_rows 0 then [Warn (no_results url)] else [],
          Returned (default (JList []) (o !! "msg")))
    else ([], Raised (ValueError (invalid_query url))).
Proof.
  intros Hs Hn. unfold check_envelope, getitem, get. rewrite Hs.
  destruct success; cbn; [| reflexivity].
  rewrite Hn. cbn.
  destruct (eq_int total_rows 0), (o !! "msg"); reflexivity.
Qed.

Lemma make_api_query_run (status : Z) (info : json) :
  net url = Reply status (Some info) ->
  status < 400 \/ 600 <= status ->
  run
  = (preamble ++ HttpGet url :: events (check_envelope url info),
     outcome (check_envelope url info)).
Proof.
  intros Hnet Hst. unfold _make_api_query, requests_get, raise_for_status.
  rewrite Hnet. cbn.
  assert ((400 <=? status) && (status <? 600) = false) as ->.
  { apply andb_false_iff. lia. }
  destruct verbose, (check_envelope _ info); reflexivity.
Qed.

(** C2 (as the code has it).  For an answer that parses to an envelope
    with a boolean [success]: [ValueError] is raised exactly when
    [success] is false; otherwise the [msg] list is returned, the warning
    that names the query is emitted when [total_rows] is the integer 0,
    and no warning at all is emitted when [total_rows] is a string. *)
Theorem make_api_query_envelope (status : Z) (o : gmap string json)
    (success : bool) (total_rows : json) :
  net url = Reply status (Some (JObj o)) ->
  status < 400 \/ 600 <= status ->
  o !! "success" = Some (JBool success) ->
  o !! "total_rows" = Some total_rows ->
  (outcome run = Raised (ValueError (invalid_query url)) <-> success = false) /\
  (success = true -> outcome run = Returned (default (JList []) (o !! "msg"))) /\
  (success = true -> total_rows = JInt 0 ->
     events run = preamble ++ [HttpGet url; Warn (no_results url)]) /\
  (success = true -> forall s, total_rows = JStr s ->
     events run = preamble ++ [HttpGet url]).
Proof.
  intros Hnet Hst Hs Hn.
  rewrite (make_api_query_run status (JObj o) Hnet Hst).
  rewrite (check_envelope_run o success total_rows Hs Hn).
  destruct success; cbn.
  - split; [split; discriminate |].
    split; [reflexivity |].
    split; [intros _ -> | intros _ s ->]; reflexivity.
  - split; [split; reflexivity |].
    repeat split; discriminate.
Qed.

End executor.

Lemma make_api_query_envelope_witness :
  (outcome (_make_api_query (answer (JObj (empty_envelope (JInt 0))))
              "Gene" None (Some (One "[id$eq0]")) None None false)
   = Returned (JList [])) /\
  (events (_make_api_query (answer (JObj (empty_envelope (JInt 0))))
             "Gene" None (Some (One "[id$eq0]")) None None false)
   = [ HttpGet (query_url "Gene" None (Some (One "[id$eq0]")) None None);
       Warn (no_results (query_url "Gene" None (Some (One "[id$eq0]")) None None)) ]).
Proof.
  pose proof (make_api_query_envelope (answer (JObj (empty_envelope (JInt 0))))
                "Gene" None (Some (One "[id$eq0]")) None None false
                200 (empty_envelope (JInt 0)) true (JInt 0)
                eq_refl (or_introl eq_refl) eq_refl eq_refl)
    as (_ & Hret & Hwarn & _).
  split; [exact (Hret eq_refl) | exact (Hwarn eq_refl eq_refl)].
Defined.

(** C2 (as the specification has it) fails: a row count of zero that
    arrives as the string ["0"] raises nothing and returns the list, but no
    warning is emitted. *)
Lemma string_zero_count_not_warned :
  outcome (_make_api_query (answer (JObj (empty_envelope (JStr "0"))))
             "Gene" None (Some (One "[id$eq0]")) None None false)
  = Returned (JList []) /\
  forall msg,
    ~ In (Warn msg)
        (events (_make_api_query (answer (JObj (empty_envelope (JStr "0"))))
                   "Gene" None (Some (One "[id$eq0]")) None None false)).
Proof.
  split; [reflexivity |].
  intros msg [H | []]. discriminate H.
Qed.

(** ** Single-attribute extraction *)

Lemma single_attribute_unknown root attr :
  findall root (gene_path attr) = [] ->
  _get_single_gene_attribute root attr
  = Raised (AttributeError ("There is no gene attribute called " +:+ attr)).
Proof. intros H. unfold _get_single_gene_attribute. rewrite H. reflexivity. Qed.

Lemma single_attribute_first root attr e rest :
  findall root (gene_path attr) = e :: rest ->
  _get_single_gene_attribute root attr
  = Returned match text e with
             | None => VNone
             | Some s => match parse_int s with Some z => VInt z | None => VStr s end
             end.
Proof.
  intros H. unfold _get_single_gene_attribute. rewrite H.
  destruct (text e) as [s |]; cbn; [| reflexivity].
  destruct (parse_int s); reflexivity.
Qed.

(** The only exception of a single extraction is the [AttributeError] of an
    attribute without matches. *)
Lemma single_attribute_raises root attr e :
  _get_single_gene_attribute root attr = Raised e ->
  findall root (gene_path attr) = [] /\
  e = AttributeError ("There is no gene attribute called " +:+ attr).
Proof.
  destruct (findall root (gene_path attr)) as [| e0 rest] eqn:H.
  - rewrite (single_attribute_unknown _ _ H). intros [= <-]. split; reflexivity.
  - rewrite (single_attribute_first _ _ _ _ H). discriminate.
Qed.

(** C5 (as the code has it).  No match for the attribute's path raises
    [AttributeError]; otherwise the first match decides: no text gives
    [None], text that [int] accepts gives that integer, and any other text
    is returned as it is, surrounding whitespace included. *)
Theorem single_attribute_extraction (root : Element) (attr : string) :
  (findall root (gene_path attr) = [] ->
   _get_single_gene_attribute root attr
   = Raised (AttributeError ("There is no gene attribute called " +:+ attr))) /\
  (forall e rest, findall root (gene_path attr) = e :: rest ->
     (text e = None -> _get_single_gene_attribute root attr = Returned VNone) /\
     (forall s z, text e = Some s -> parse_int s = Some z ->
        _get_single_gene_attribute root attr = Returned (VInt z)) /\
     (forall s, text e = Some s -> parse_int s = None ->
        _get_single_gene_attribute root attr = Returned (VStr s))).
Proof.
  split; [apply single_attribute_unknown |].
  intros e rest H. rewrite (single_attribute_first _ _ _ _ H).
  split; [| split].
  - intros ->. reflexivity.
  - intros s z -> ->. reflexivity.
  - intros s -> ->. reflexivity.
Qed.

Lemma single_attribute_extraction_witness :
  _get_single_gene_attribute (Response_of "1" [Pdyn]) "symbol"
  = Raised (AttributeError "There is no gene attribute called symbol") /\
  _get_single_gene_attribute (Response_of "1" [Pdyn]) "alias-tags" = Returned VNone /\
  _get_single_gene_attribute (Response_of "1" [Pdyn]) "id" = Returned (VInt 18376) /\
  _get_single_gene_attribute (Response_of "1" [Pdyn]) "name"
  = Returned (VStr " prodynorphin ").
Proof.
  split; [| split; [| split]].
  - apply (single_attribute_extraction (Response_of "1" [Pdyn]) "symbol").
    reflexivity.
  - apply (proj2 (single_attribute_extraction (Response_of "1" [Pdyn]) "alias-tags")
             (leaf "alias-tags" None) []); reflexivity.
  - apply (proj2 (single_attribute_extraction (Response_of "1" [Pdyn]) "id")
             (leaf "id" (Some "18376")) []) with (s := "18376"); reflexivity.
  - apply (proj2 (single_attribute_extraction (Response_of "1" [Pdyn]) "name")
             (leaf "name" (Some " prodynorphin ")) []); reflexivity.
Defined.

(** C5 (as the specification has it) fails: text that is not an integer is
    returned untrimmed. *)
Lemma single_attribute_not_trimmed :
  _get_single_gene_attribute (Response_of "1" [Pdyn]) "name"
  = Returned (VStr " prodynorphin ") /\
  strip " prodynorphin " = "prodynorphin" /\
  _get_single_gene_attribute (Response_of "1" [Pdyn]) "name"
  <> Returned (VStr (strip " prodynorphin ")).
Proof. repeat split. discriminate. Qed.



(** ** The gene validator *)

Lemma to_int_proper (z : Z) :
  Z.to_int z <> Decimal.Pos Decimal.Nil /\ Z.to_int z <> Decimal.Neg Decimal.Nil.
Proof.
  destruct z; simpl; split; try discriminate; intros [= H];
    exact (DecimalPos.Unsigned.to_uint_nonnil _ H).
Qed.

Lemma str_int_inj (a b : Z) : str_int a = str_int b -> a = b.
Proof.
  unfold str_int. intros H.
  apply (f_equal NilZero.int_of_string) in H.
  destruct (to_int_proper a), (to_int_proper b).
  rewrite !NilZero.isi in H by assumption.
  injection H as H. apply (f_equal Z.of_int) in H.
  now rewrite !DecimalZ.of_to in H.
Qed.

Lemma nonzero_count (n : Z) : negb (String.eqb (str_int n) "0") = true <-> n <> 0.
Proof.
  rewrite negb_true_iff. split.
  - intros H ->. discriminate H.
  - intros Hn. apply String.eqb_neq. intros H. apply Hn.
    apply str_int_inj. exact H.
Qed.

Section validator.

Variable net : string -> reply Element.
Variables gene_id gene_acronym gene_name : option atom.

Local Abbreviation check := (check_gene_validity net gene_id gene_acronym gene_name).

Lemma gene_query_url_pure :
  exists r, gene_query_url gene_id gene_acronym gene_name = ([], r).
Proof.
  unfold gene_query_url.
  destruct gene_id, gene_acronym, gene_name; eexists; reflexivity.
Qed.

Lemma check_gene_validity_run url status root total_rows :
  gene_query_url gene_id gene_acronym gene_name = ([], Returned url) ->
  net url = Reply status (Some root) ->
  attrib root !! "total_rows" = Some total_rows ->
  check
  = ([Print ("access " +:+ url +:+ "..."); HttpGet url],
     Returned (negb (String.eqb total_rows "0"), root)).
Proof.
  intros Hurl Hnet Hrows.
  unfold check_gene_validity, requests_get, fromstring, attrib_getitem.
  rewrite Hurl. cbn. rewrite Hnet. cbn. rewrite Hrows. cbn.
  destruct (String.eqb total_rows "0"); reflexivity.
Qed.

Lemma check_gene_validity_returned validity root :
  outcome check = Returned (validity, root) ->
  exists url status total_rows,
    gene_query_url gene_id gene_acronym gene_name = ([], Returned url) /\
    net url = Reply status (Some root) /\
    attrib root !! "total_rows" = Some total_rows /\
    validity = negb (String.eqb total_rows "0").
Proof.
  unfold check_gene_validity, requests_get, fromstring, attrib_getitem.
  destruct gene_query_url_pure as [[e | url] ->]; cbn; [discriminate |].
  destruct (net url) as [| status [root' |]] eqn:Hnet; cbn; try discriminate.
  destruct (attrib root' !! "total_rows") as [total_rows |] eqn:Hrows; cbn;
    [| discriminate].
  intros H. exists url, status, total_rows.
  destruct (String.eqb total_rows "0"); cbn in H; injection H as <- <-;
    repeat split; assumption.
Qed.

(** C7.  The validator returns [(validity, root)] exactly when the server
    answered the query with a parsable body [root] that carries a
    [total_rows] attribute; [validity] then tells whether that attribute
    differs from ["0"], that is, for a count written in decimal, whether
    the count is not zero.  The root returned is the parsed body in both
    cases. *)
Theorem check_gene_validity_row_count (validity : bool) (root : Element) :
  outcome check = Returned (validity, root) <->
  exists url status total_rows,
    gene_query_url gene_id gene_acronym gene_name = ([], Returned url) /\
    net url = Reply status (Some root) /\
    attrib root !! "total_rows" = Some total_rows /\
    validity = negb (String.eqb total_rows "0") /\
    forall n : Z, total_rows = str_int n -> (validity = true <-> n <> 0).
Proof.
  split.
  - intros H. apply check_gene_validity_returned in H.
    destruct H as (url & status & total_rows & Hurl & Hnet & Hrows & Hv).
    exists url, status, total_rows. repeat split; try assumption.
    + intros Ht. subst. apply nonzero_count. assumption.
    + intros Hn. subst. apply nonzero_count. assumption.
  - intros (url & status & total_rows & Hurl & Hnet & Hrows & Hv & _).
    rewrite (check_gene_validity_run url status root total_rows Hurl Hnet Hrows).
    subst. reflexivity.
Qed.

(** A call that returns was given an identifier. *)
Lemma check_gene_validity_given t validity root :
  check = (t, Returned (validity, root)) ->
  exists item, first_given [gene_id; gene_acronym; gene_name] = ([], Returned item).
Proof.
  intros H.
  assert (Ho : outcome check = Returned (validity, root)) by (rewrite H; reflexivity).
  apply check_gene_validity_returned in Ho.
  destruct Ho as (url & _ & _ & Hurl & _).
  unfold gene_query_url in Hurl.
  destruct gene_id as [i |]; [exists i; reflexivity |].
  destruct gene_acronym as [a |]; [exists a; reflexivity |].
  destruct gene_name as [n |]; [exists n; reflexivity |].
  discriminate Hurl.
Qed.

End validator.

Lemma check_gene_validity_row_count_witness :
  outcome (check_gene_validity (answer (Response_of "0" [])) (Some (AInt 0)) None None)
  = Returned (false, Response_of "0" []) /\
  outcome (check_gene_validity (answer (Response_of "1" [Pdyn]))
             None (Some (AStr "Pdyn")) None)
  = Returned (true, Response_of "1" [Pdyn]).
Proof.
  split.
  - apply (check_gene_validity_row_count
             (answer (Response_of "0" [])) (Some (AInt 0)) None None).
    eexists _, 200, "0". do 4 (split; [reflexivity |]).
    intros n Hn. split; [discriminate |].
    intros Hne. exfalso. apply Hne. apply str_int_inj. symmetry. exact Hn.
  - apply (check_gene_validity_row_count
             (answer (Response_of "1" [Pdyn])) None (Some (AStr "Pdyn")) None).
    eexists _, 200, "1". do 4 (split; [reflexivity |]).
    intros n Hn. split; [| reflexivity].
    intros _ ->. discriminate Hn.
Defined.

(** ** The gene lookup *)

Section lookup.

Variable net : string -> reply Element.
Variables gene_id gene_acronym gene_name : option atom.

Local Abbreviation check := (check_gene_validity net gene_id gene_acronym gene_name).
Local Abbreviation lookup := (get_gene_info net gene_id gene_acronym gene_name).

(** One iteration of the loop: a value is stored, or a line is printed. *)
Lemma collect_step (root : Element) (attr : string) (rest : list string)
    (gene_info : gmap string value) :
  collect root (attr :: rest) gene_info
  = match _get_single_gene_attribute root attr with
    | Returned v => collect root rest (<[attr := v]> gene_info)
    | Raised _ =>
        (Print (skipped attr) :: events (collect root rest gene_info),
         outcome (collect root rest gene_info))
    end.
Proof.
  cbn [collect].
  destruct (_get_single_gene_attribute root attr) as [e | v] eqn:Hattr.
  - apply single_attribute_raises in Hattr as [_ ->]. cbn.
    destruct (collect root rest gene_info). reflexivity.
  - cbn. destruct (collect root rest _). reflexivity.
Qed.

(** An attribute that is not in the list keeps its entry. *)
Lemma collect_frame (root : Element) (attr : string) (attr_list : list string) :
  ~ In attr attr_list ->
  forall (gene_info : gmap string value) t d,
    collect root attr_list gene_info = (t, Returned d) ->
    d !! attr = gene_info !! attr.
Proof.
  induction attr_list as [| a rest IH]; intros Hout gene_info t d Hrun.
  - injection Hrun as _ <-. reflexivity.
  - assert (Ha : a <> attr) by (intros ->; apply Hout; left; reflexivity).
    assert (Hrest : ~ In attr rest) by (intros ?; apply Hout; right; assumption).
    rewrite collect_step in Hrun.
    destruct (_get_single_gene_attribute root a) as [e | v].
    + destruct (collect root rest gene_info) as [t0 r0] eqn:H0.
      cbn in Hrun. injection Hrun as _ ->. exact (IH Hrest _ _ _ H0).
    + rewrite (IH Hrest _ _ _ Hrun). apply lookup_insert_ne. exact Ha.
Qed.

(** The loop over the attributes never raises: it returns the mapping
    with every attribute of the list that has a match, and prints one line
    for every one that has none. *)
Lemma collect_run (root : Element) (attr_list : list string) :
  forall gene_info : gmap string value,
  exists t (d : gmap string value),
    collect root attr_list gene_info = (t, Returned d) /\
    (forall attr v, In attr attr_list ->
       _get_single_gene_attribute root attr = Returned v -> d !! attr = Some v) /\
    (forall attr, findall root (gene_path attr) = [] -> d !! attr = gene_info !! attr) /\
    (forall attr, In attr attr_list -> findall root (gene_path attr) = [] ->
       In (Print (skipped attr)) t).
Proof.
  induction attr_list as [| attr0 rest IH]; intros gene_info.
  - exists [], gene_info. split; [reflexivity |]. split; [| split].
    + intros attr v [].
    + reflexivity.
    + intros attr [].
  - rewrite collect_step.
    destruct (_get_single_gene_attribute root attr0) as [e | v0] eqn:H0.
    + apply single_attribute_raises in H0 as Hno. destruct Hno as [Hno ->].
      destruct (IH gene_info) as (t & d & Hrun & Hknown & Hunknown & Hprint).
      exists (Print (skipped attr0) :: t), d. rewrite Hrun. cbn.
      split; [reflexivity |]. split; [| split].
      * intros attr v [<- | Hin] Hv; [congruence | eauto].
      * assumption.
      * intros attr [<- | Hin] Hattr; [left; reflexivity | right; eauto].
    + destruct (IH (<[attr0 := v0]> gene_info))
        as (t & d & Hrun & Hknown & Hunknown & Hprint).
      exists t, d. split; [assumption |]. split; [| split].
      * intros attr v [<- | Hin] Hv; [| eauto].
        destruct (in_dec string_dec attr0 rest) as [Hin | Hout]; [eauto |].
        rewrite (collect_frame root attr0 rest Hout _ _ _ Hrun), lookup_insert_eq.
        congruence.
      * intros attr Hattr. rewrite (Hunknown attr Hattr).
        apply lookup_insert_ne. intros ->.
        rewrite (single_attribute_unknown _ _ Hattr) in H0. discriminate.
      * intros attr [<- | Hin] Hattr; [| eauto].
        rewrite (single_attribute_unknown _ _ Hattr) in H0. discriminate.
Qed.

(** C8.  When the validator reports that the gene has no records, the
    lookup raises [ValueError] with a message that names the first
    identifier given, in the order id, acronym, name; the trace is the
    validator's, so no extraction took place. *)
Theorem get_gene_info_invalid (attributes : strs) (t : list event) (root : Element) :
  check = (t, Returned (false, root)) ->
  exists item,
    match gene_id, gene_acronym, gene_name with
    | Some i, _, _ => Some i
    | None, Some a, _ => Some a
    | None, None, n => n
    end = Some item /\
    lookup attributes
    = (t, Raised (ValueError ("Gene " +:+ str item +:+ " is invalid. Try another gene."))).
Proof.
  intros H.
  destruct (check_gene_validity_given _ _ _ _ _ _ _ H) as [item Hitem].
  exists item. split.
  - destruct gene_id, gene_acronym, gene_name; cbn in Hitem;
      unfold ret, raise in Hitem; congruence.
  - unfold get_gene_info. rewrite H. cbn. rewrite Hitem. cbn.
    rewrite app_nil_r. reflexivity.
Qed.


End lookup.

Lemma get_gene_info_invalid_witness :
  get_gene_info (answer (Response_of "0" [])) (Some (AInt 0)) None None (One "all")
  = ([ Print ("access " +:+ URL_PREFIX +:+ "genes[id$eq0]" +:+ URL_INCLUDE +:+ "...");
       HttpGet (URL_PREFIX +:+ "genes[id$eq0]" +:+ URL_INCLUDE) ],
     Raised (ValueError "Gene 0 is invalid. Try another gene.")) /\
  outcome (get_gene_info (answer (Response_of "0" []))
             None (Some (AStr "random_string")) (Some (AStr "prodynorphin"))
             (Many ["id"; "name"]))
  = Raised (ValueError "Gene random_string is invalid. Try another gene.").
Proof.
  split.
  - destruct (get_gene_info_invalid (answer (Response_of "0" []))
                (Some (AInt 0)) None None (One "all") _ (Response_of "0" []) eq_refl)
      as (item & Hitem & Hrun).
    injection Hitem as <-. exact Hrun.
  - destruct (get_gene_info_invalid (answer (Response_of "0" []))
                None (Some (AStr "random_string")) (Some (AStr "prodynorphin"))
                (Many ["id"; "name"]) _ (Response_of "0" []) eq_refl)
      as (item & Hitem & Hrun).
    injection Hitem as <-. rewrite Hrun. reflexivity.
Defined.


(** * Further properties *)

(** ** Strings *)

Lemma append_cons (c : ascii) (a b : string) : String c a +:+ b = String c (a +:+ b).
Proof. reflexivity. Qed.

Lemma append_nil_r (s : string) : s +:+ "" = s.
Proof.
  induction s as [| c s IH]; [reflexivity |].
  rewrite append_cons, IH. reflexivity.
Qed.

Lemma append_assoc (a b c : string) : (a +:+ b) +:+ c = a +:+ b +:+ c.
Proof.
  induction a as [| x a IH]; [reflexivity |].
  rewrite !append_cons, IH. reflexivity.
Qed.

Lemma all_chars_app (P : ascii -> bool) (a b : string) :
  all_chars P (a +:+ b) = all_chars P a && all_chars P b.
Proof.
  induction a as [| x a IH]; [reflexivity |].
  rewrite append_cons. simpl. rewrite IH. apply andb_assoc.
Qed.

Lemma all_chars_weaken (P Q : ascii -> bool) (s : string) :
  (forall c, P c = true -> Q c = true) ->
  all_chars P s = true -> all_chars Q s = true.
Proof.
  intros HPQ. induction s as [| c s IH]; simpl; [reflexivity |].
  intros [Hc Hs]%andb_true_iff. rewrite (HPQ c Hc), (IH Hs). reflexivity.
Qed.

Lemma quote_plus_cons (c : ascii) (s : string) :
  quote_plus (String c s)
  = (if is_unreserved c then String c ""
     else if Ascii.eqb c " " then "+" else percent c) +:+ quote_plus s.
Proof. reflexivity. Qed.

Lemma quote_plus_app (a b : string) :
  quote_plus (a +:+ b) = quote_plus a +:+ quote_plus b.
Proof.
  induction a as [| x a IH]; [reflexivity |].
  rewrite append_cons, !quote_plus_cons, IH, append_assoc. reflexivity.
Qed.

Lemma percent_safe (c : ascii) : all_chars is_url_safe (percent c) = true.
Proof. destruct c as [[] [] [] [] [] [] [] []]; vm_compute; reflexivity. Qed.

Lemma quote_plus_safe (s : string) : all_chars is_url_safe (quote_plus s) = true.
Proof.
  induction s as [| c s IH]; [reflexivity |].
  rewrite quote_plus_cons, all_chars_app, IH, andb_true_r.
  destruct (is_unreserved c) eqn:Hc.
  - simpl. unfold is_url_safe. rewrite Hc. reflexivity.
  - destruct (Ascii.eqb c " "); [reflexivity | apply percent_safe].
Qed.

(** Text made of unreserved characters is not changed by the escaping. *)
Lemma quote_plus_unreserved (s : string) :
  all_chars is_unreserved s = true -> quote_plus s = s.
Proof.
  induction s as [| c s IH]; [reflexivity |].
  simpl all_chars. intros [Hc Hs]%andb_true_iff.
  rewrite quote_plus_cons, Hc, (IH Hs). reflexivity.
Qed.

Lemma numeral_unreserved (c : ascii) : is_numeral c = true -> is_unreserved c = true.
Proof. destruct c as [[] [] [] [] [] [] [] []]; vm_compute; congruence. Qed.

Lemma uint_digits (d : Decimal.uint) :
  all_chars is_digit (NilEmpty.string_of_uint d) = true.
Proof. induction d; simpl; try reflexivity; assumption. Qed.

Lemma digit_numeral (c : ascii) : is_digit c = true -> is_numeral c = true.
Proof. unfold is_numeral. intros ->. reflexivity. Qed.

Lemma str_int_numeral (z : Z) : all_chars is_numeral (str_int z) = true.
Proof.
  assert (Hu : forall d, all_chars is_numeral (NilZero.string_of_uint d) = true).
  { intros d. destruct d; try reflexivity;
      apply (all_chars_weaken is_digit); auto using digit_numeral;
      apply (uint_digits (_ d)). }
  unfold str_int. destruct (Z.to_int z); simpl; [apply Hu |].
  rewrite Hu. reflexivity.
Qed.

Lemma quote_plus_str_int (z : Z) : quote_plus (str_int z) = str_int z.
Proof.
  apply quote_plus_unreserved.
  apply (all_chars_weaken is_numeral); auto using numeral_unreserved, str_int_numeral.
Qed.

(** ** More on the criteria builder *)

Lemma coerce_inputs_selected (p : arg) (acronym name : option arg) :
  _coerce_inputs (Some p) acronym name = Returned (emitted "id" p) /\
  _coerce_inputs None (Some p) name = Returned (emitted "acronym" p) /\
  _coerce_inputs None None (Some p) = Returned (emitted "name" p).
Proof.
  assert (Hsel : forall field,
            match param (select field "eq" p) with
            | None => Raised (TypeError
                "At least one of ['id', 'acronym', 'name'] must be specified.")
            | Some v => Returned ("[" +:+ criteria (select field "eq" p) +:+ "$"
                                  +:+ query (select field "eq" p) +:+ str v +:+ "]")
            end = Returned (emitted field p)).
  { intros field.
    destruct (select_emitted field "eq" p eq_refl) as (Hc & v & Hv & Hfrag).
    rewrite Hv, Hc. f_equal. exact Hfrag. }
  repeat split; apply Hsel.
Qed.

(** X1.  The criteria builder raises exactly when the three parameters are
    all [None], and then it raises the [TypeError]; with any parameter given
    it returns a fragment. *)
Theorem coerce_inputs_raises_iff (id acronym name : option arg) :
  (forall e, _coerce_inputs id acronym name = Raised e ->
     e = TypeError "At least one of ['id', 'acronym', 'name'] must be specified.") /\
  ((exists e, _coerce_inputs id acronym name = Raised e) <->
   id = None /\ acronym = None /\ name = None).
Proof.
  destruct id as [p |]; [| destruct acronym as [p |]; [| destruct name as [p |]]].
  - destruct (coerce_inputs_selected p acronym name) as (H & _). rewrite H.
    split; [discriminate |].
    split; [intros [e He]; discriminate He | intros (H' & _); discriminate H'].
  - destruct (coerce_inputs_selected p None name) as (_ & H & _). rewrite H.
    split; [discriminate |].
    split; [intros [e He]; discriminate He | intros (_ & H' & _); discriminate H'].
  - destruct (coerce_inputs_selected p None None) as (_ & _ & H). rewrite H.
    split; [discriminate |].
    split; [intros [e He]; discriminate He | intros (_ & _ & H'); discriminate H'].
  - split; [intros e [= <-]; reflexivity |].
    split; [intros _; repeat split | intros _; eexists; reflexivity].
Qed.

(** ** More on the query executor *)

(** X2.  The URL is the base for the data type, followed by the [include],
    [criteria] and [only] parameters that were given, in this order, each as
    [key=value&] where the value, a list being joined with commas first, is
    escaped by [quote_plus], followed by the suffix as it was passed; an
    escaped value holds letters, digits and [_.-~+%] only. *)
Theorem query_url_layout (dtype : string) (includes criteria attributes : option strs)
    (suffix : option string) :
  query_url dtype includes criteria attributes suffix
  = api dtype
    +:+ escaped_part "include" includes
    +:+ escaped_part "criteria" criteria
    +:+ escaped_part "only" attributes
    +:+ default "" suffix /\
  (forall value : strs, all_chars is_url_safe (quote_plus (joined value)) = true).
Proof.
  split; [| intros value; apply quote_plus_safe].
  assert (Hadd : forall url key value,
            add_param url (key, value) = url +:+ escaped_part key value).
  { intros url key [v |]; [reflexivity | symmetry; apply append_nil_r]. }
  unfold query_url. cbn [zip zip_with fold_left]. rewrite !Hadd.
  fold (api dtype). rewrite !append_assoc.
  destruct suffix as [sfx |]; cbn [default]; rewrite ?append_assoc, ?append_nil_r;
    reflexivity.
Qed.

Lemma requested_app (a b : list event) : requested (a ++ b) = requested a ++ requested b.
Proof.
  induction a as [| ev a IH]; [reflexivity |].
  destruct ev; simpl; rewrite IH; reflexivity.
Qed.

Lemma warned_app (a b : list event) : warned (a ++ b) = warned a ++ warned b.
Proof.
  induction a as [| ev a IH]; [reflexivity |].
  destruct ev; simpl; rewrite IH; reflexivity.
Qed.

(** What the envelope check adds to the trace: nothing, or the warning. *)
Lemma check_envelope_events (url : string) (info : json) :
  events (check_envelope url info) = [] \/
  events (check_envelope url info) = [Warn (no_results url)].
Proof.
  unfold check_envelope, getitem, get.
  destruct info as [| | | | | o]; try (left; reflexivity).
  destruct (o !! "success") as [success |]; [| left; reflexivity]. cbn.
  destruct (truthy success); [| left; reflexivity]. cbn.
  destruct (o !! "total_rows") as [total_rows |]; [| left; reflexivity]. cbn.
  destruct (eq_int total_rows 0), (o !! "msg"); cbn; auto.
Qed.

Section executor_more.

Variable net : string -> reply json.
Variables (dtype : string) (includes criteria attributes : option strs).
Variable suffix : option string.

Local Abbreviation url := (query_url dtype includes criteria attributes suffix).
Local Abbreviation run := (_make_api_query net dtype includes criteria attributes suffix).
Local Abbreviation preamble :=
  (fun verbose : bool => if verbose then [Print ("Querying " +:+ url +:+ "...")] else []).

(** The executor, by the answer of the server. *)
Lemma make_api_query_cases (verbose : bool) :
  run verbose
  = match net url with
    | Unreachable => (preamble verbose ++ [HttpGet url], Raised ConnectionError)
    | Reply status body =>
        if (400 <=? status) && (status <? 600)
        then (preamble verbose ++ [HttpGet url], Raised (HTTPError status))
        else
          match body with
          | None => (preamble verbose ++ [HttpGet url], Raised JSONDecodeError)
          | Some info =>
              (preamble verbose ++ HttpGet url :: events (check_envelope url info),
               outcome (check_envelope url info))
          end
    end.
Proof.
  unfold _make_api_query, requests_get, raise_for_status, json_loads.
  destruct (net url) as [| status body]; cbn.
  - destruct verbose; reflexivity.
  - destruct ((400 <=? status) && (status <? 600)); cbn.
    + destruct verbose; reflexivity.
    + destruct body as [info |]; cbn.
      * destruct verbose, (check_envelope _ info); reflexivity.
      * destruct verbose; reflexivity.
Qed.

(** X3.  Every call sends exactly one request, to the URL built from its
    arguments, whatever the server answers and however the call ends. *)
Theorem make_api_query_one_request (verbose : bool) :
  requested (events (run verbose)) = [url].
Proof.
  rewrite make_api_query_cases.
  assert (Hpre : requested (preamble verbose) = []) by (destruct verbose; reflexivity).
  destruct (net url) as [| status body]; cbn [events fst].
  - rewrite requested_app, Hpre. reflexivity.
  - destruct ((400 <=? status) && (status <? 600)); cbn [events fst].
    + rewrite requested_app, Hpre. reflexivity.
    + destruct body as [info |]; cbn [events fst]; rewrite requested_app, Hpre;
        [| reflexivity].
      destruct (check_envelope_events url info) as [-> | ->]; reflexivity.
Qed.

(** X4.  A transport failure ends the call before the body is looked at:
    no answer raises [ConnectionError], a status from 400 to 599 raises
    [HTTPError] even when the body is a well-formed envelope, and a body
    that is not JSON raises [JSONDecodeError]; none of them warns. *)
Theorem make_api_query_transport_errors (verbose : bool) :
  (net url = Unreachable ->
   _make_api_query net dtype includes criteria attributes suffix verbose
   = (preamble verbose ++ [HttpGet url], Raised ConnectionError)) /\
  (forall status body,
     net url = Reply status body -> 400 <= status < 600 ->
     _make_api_query net dtype includes criteria attributes suffix verbose
     = (preamble verbose ++ [HttpGet url], Raised (HTTPError status))) /\
  (forall status,
     net url = Reply status None -> status < 400 \/ 600 <= status ->
     _make_api_query net dtype includes criteria attributes suffix verbose
     = (preamble verbose ++ [HttpGet url], Raised JSONDecodeError)).
Proof.
  rewrite make_api_query_cases. split; [| split].
  - intros ->. reflexivity.
  - intros status body -> Hst.
    assert ((400 <=? status) && (status <? 600) = true) as ->; [| reflexivity].
    apply andb_true_iff. lia.
  - intros status -> Hst.
    assert ((400 <=? status) && (status <? 600) = false) as ->; [| reflexivity].
    apply andb_false_iff. lia.
Qed.

(** X5.  What the executor does with an answer that is not the expected
    envelope: a body that is not an object raises [TypeError], an object
    without [success] raises [KeyError]; a falsy [success] of any type
    raises [ValueError] without [total_rows] being read; a truthy [success]
    without [total_rows] raises [KeyError]; and with both present the call
    returns [msg], or the empty list when [msg] is missing. *)
Theorem make_api_query_malformed_envelope (verbose : bool) (status : Z) (info : json) :
  net url = Reply status (Some info) ->
  status < 400 \/ 600 <= status ->
  ((forall o, info <> JObj o) -> exists msg, outcome (run verbose) = Raised (TypeError msg)) /\
  (forall o, info = JObj o ->
     (o !! "success" = None -> outcome (run verbose) = Raised (KeyError "success")) /\
     (forall success, o !! "success" = Some success ->
        (truthy success = false ->
         outcome (run verbose) = Raised (ValueError (invalid_query url))) /\
        (truthy success = true -> o !! "total_rows" = None ->
         outcome (run verbose) = Raised (KeyError "total_rows")) /\
        (truthy success = true -> is_Some (o !! "total_rows") ->
         outcome (run verbose) = Returned (default (JList []) (o !! "msg"))))).
Proof.
  intros Hnet Hst. rewrite make_api_query_cases, Hnet.
  assert ((400 <=? status) && (status <? 600) = false) as ->
    by (apply andb_false_iff; lia).
  cbn [outcome snd]. unfold check_envelope, getitem, get. split.
  - intros Hobj. destruct info as [| | | | | o]; try (eexists; reflexivity).
    destruct (Hobj o eq_refl).
  - intros o ->. split.
    + intros ->. reflexivity.
    + intros success ->. cbn. split; [| split].
      * intros ->. reflexivity.
      * intros -> ->. reflexivity.
      * intros -> [total_rows ->]. cbn.
        destruct (eq_int total_rows 0), (o !! "msg"); reflexivity.
Qed.

(** X6.  [verbose] only adds the line printed before the request: the
    result is the same, and so is the rest of the trace. *)
Theorem make_api_query_verbose :
  outcome (run true) = outcome (run false) /\
  events (run true) = Print ("Querying " +:+ url +:+ "...") :: events (run false).
Proof.
  rewrite !make_api_query_cases.
  destruct (net url) as [| status body]; [split; reflexivity |].
  destruct ((400 <=? status) && (status <? 600)); [split; reflexivity |].
  destruct body; split; reflexivity.
Qed.

End executor_more.

Lemma make_api_query_transport_errors_witness :
  _make_api_query (always Unreachable) "Gene" None None None None false
  = ([HttpGet "http://api.brain-map.org/api/v2/data/Gene/query.json?"],
     Raised ConnectionError) /\
  _make_api_query (always (Reply 404 (Some (JObj (empty_envelope (JInt 1))))))
    "Gene" None None None None false
  = ([HttpGet "http://api.brain-map.org/api/v2/data/Gene/query.json?"],
     Raised (HTTPError 404)) /\
  _make_api_query (always (Reply 200 None)) "Gene" None None None None false
  = ([HttpGet "http://api.brain-map.org/api/v2/data/Gene/query.json?"],
     Raised JSONDecodeError).
Proof.
  split; [| split].
  - apply (proj1 (make_api_query_transport_errors (always Unreachable)
                    "Gene" None None None None false)).
    reflexivity.
  - apply (proj1 (proj2 (make_api_query_transport_errors
                           (always (Reply 404 (Some (JObj (empty_envelope (JInt 1))))))
                           "Gene" None None None None false))
             404 (Some (JObj (empty_envelope (JInt 1)))));
      [reflexivity | lia].
  - apply (proj2 (proj2 (make_api_query_transport_errors (always (Reply 200 None))
                           "Gene" None None None None false)) 200);
      [reflexivity | lia].
Defined.

Lemma make_api_query_malformed_envelope_witness :
  outcome (_make_api_query (always (Reply 200 (Some (JObj rejected))))
             "Gene" None None None None false)
  = Raised (ValueError (invalid_query "http://api.brain-map.org/api/v2/data/Gene/query.json?")) /\
  outcome (_make_api_query (always (Reply 200 (Some (JObj ∅))))
             "Gene" None None None None false)
  = Raised (KeyError "success").
Proof.
  split.
  - apply (proj2 (make_api_query_malformed_envelope
                    (always (Reply 200 (Some (JObj rejected))))
                    "Gene" None None None None false 200 (JObj rejected) eq_refl
                    (or_introl eq_refl))
             rejected eq_refl)
      with (success := JBool false); reflexivity.
  - apply (proj2 (make_api_query_malformed_envelope
                    (always (Reply 200 (Some (JObj ∅))))
                    "Gene" None None None None false 200 (JObj ∅) eq_refl
                    (or_introl eq_refl))
             ∅ eq_refl).
    reflexivity.
Defined.

(** X7.  A fragment of the criteria builder passed as [criteria] reaches
    the URL escaped: for a numeric id the query string is
    [criteria=%5Bid%24eq<id>%5D&], for a scalar acronym it is
    [criteria=%5Bacronym%24eq<escaped acronym>%5D&]. *)
Theorem criteria_in_url (dtype : string) :
  (forall (z : Z) acronym name f,
     _coerce_inputs (Some (Scalar (AInt z))) acronym name = Returned f ->
     query_url dtype None (Some (One f)) None None
     = api dtype +:+ "criteria=%5Bid%24eq" +:+ str_int z +:+ "%5D&") /\
  (forall (s : string) name f,
     _coerce_inputs None (Some (Scalar (AStr s))) name = Returned f ->
     query_url dtype None (Some (One f)) None None
     = api dtype +:+ "criteria=%5Bacronym%24eq" +:+ quote_plus s +:+ "%5D&").
Proof.
  split.
  - intros z acronym name f Hf.
    destruct (coerce_inputs_selected (Scalar (AInt z)) acronym name) as (H & _).
    rewrite H in Hf. injection Hf as <-.
    unfold query_url. cbn [zip zip_with fold_left add_param emitted str].
    change ("[" +:+ "id" +:+ "$eq" +:+ str_int z +:+ "]")
      with ("[id$eq" +:+ str_int z +:+ "]").
    rewrite !quote_plus_app, quote_plus_str_int. fold (api dtype).
    change (quote_plus "[id$eq") with "%5Bid%24eq".
    change (quote_plus "]") with "%5D".
    rewrite !append_assoc. reflexivity.
  - intros s name f Hf.
    destruct (coerce_inputs_selected (Scalar (AStr s)) None name) as (_ & H & _).
    rewrite H in Hf. injection Hf as <-.
    unfold query_url. cbn [zip zip_with fold_left add_param emitted str].
    change ("[" +:+ "acronym" +:+ "$eq" +:+ s +:+ "]")
      with ("[acronym$eq" +:+ s +:+ "]").
    rewrite !quote_plus_app. fold (api dtype).
    change (quote_plus "[acronym$eq") with "%5Bacronym%24eq".
    change (quote_plus "]") with "%5D".
    rewrite !append_assoc. reflexivity.
Qed.

Lemma criteria_in_url_witness :
  query_url "Structure" None (Some (One "[id$eq1018]")) None None
  = "http://api.brain-map.org/api/v2/data/Structure/query.json?criteria=%5Bid%24eq1018%5D&" /\
  query_url "Structure" None (Some (One "[acronym$eqSSp]")) None None
  = "http://api.brain-map.org/api/v2/data/Structure/query.json?criteria=%5Bacronym%24eqSSp%5D&".
Proof.
  split.
  - apply (proj1 (criteria_in_url "Structure") 1018 None None "[id$eq1018]").
    reflexivity.
  - apply (proj2 (criteria_in_url "Structure") "SSp" None "[acronym$eqSSp]").
    reflexivity.
Defined.

(** ** More on the gene validator *)

Section validator_more.

Variable net : string -> reply Element.
Variables gene_id gene_acronym gene_name : option atom.

Local Abbreviation check := (check_gene_validity net gene_id gene_acronym gene_name).
Local Abbreviation access := (fun url : string => Print ("access " +:+ url +:+ "...")).

(** The validator, by the answer of the server. *)
Lemma check_gene_validity_cases (url : string) :
  gene_query_url gene_id gene_acronym gene_name = ([], Returned url) ->
  check
  = ([access url; HttpGet url],
     match net url with
     | Unreachable => Raised ConnectionError
     | Reply _ None => Raised ParseError
     | Reply _ (Some root) =>
         match attrib root !! "total_rows" with
         | None => Raised (KeyError "total_rows")
         | Some total_rows => Returned (negb (String.eqb total_rows "0"), root)
         end
     end).
Proof.
  intros Hurl.
  unfold check_gene_validity, requests_get, fromstring, attrib_getitem.
  rewrite Hurl. cbn.
  destruct (net url) as [| status [root |]]; cbn; try reflexivity.
  destruct (attrib root !! "total_rows") as [total_rows |]; cbn; [| reflexivity].
  destruct (String.eqb total_rows "0"); reflexivity.
Qed.

(** X8.  With an identifier given, the validator prints the line that
    names the query and then sends one request to it; the trace is the same
    whatever the server answers, also when the call raises. *)
Theorem check_gene_validity_trace (url : string) :
  gene_query_url gene_id gene_acronym gene_name = ([], Returned url) ->
  events check = [Print ("access " +:+ url +:+ "..."); HttpGet url].
Proof. intros Hurl. rewrite (check_gene_validity_cases url Hurl). reflexivity. Qed.

(** X9.  How the validator fails after the request: no answer raises
    [ConnectionError], a body that is not XML raises [ParseError], and a
    root without a [total_rows] attribute raises [KeyError]. *)
Theorem check_gene_validity_errors (url : string) :
  gene_query_url gene_id gene_acronym gene_name = ([], Returned url) ->
  (net url = Unreachable -> outcome check = Raised ConnectionError) /\
  (forall status, net url = Reply status None -> outcome check = Raised ParseError) /\
  (forall status root,
     net url = Reply status (Some root) -> attrib root !! "total_rows" = None ->
     outcome check = Raised (KeyError "total_rows")).
Proof.
  intros Hurl. rewrite (check_gene_validity_cases url Hurl). cbn [outcome snd].
  split; [| split].
  - intros ->. reflexivity.
  - intros status ->. reflexivity.
  - intros status root -> ->. reflexivity.
Qed.

(** X10.  The validator never looks at the status code: two servers that
    answer the query with the same body give the same run, whatever their
    status codes (an error status raises nothing here). *)
Theorem check_gene_validity_ignores_status (net' : string -> reply Element)
    (url : string) (status status' : Z) (body : option Element) :
  gene_query_url gene_id gene_acronym gene_name = ([], Returned url) ->
  net url = Reply status body ->
  net' url = Reply status' body ->
  check = check_gene_validity net' gene_id gene_acronym gene_name.
Proof.
  intros Hurl Hnet Hnet'.
  rewrite (check_gene_validity_cases url Hurl).
  unfold check_gene_validity, requests_get, fromstring, attrib_getitem.
  rewrite Hurl. cbn. rewrite Hnet, Hnet'. cbn.
  destruct body as [root |]; cbn; [| reflexivity].
  destruct (attrib root !! "total_rows") as [total_rows |]; cbn; [| reflexivity].
  destruct (String.eqb total_rows "0"); reflexivity.
Qed.

End validator_more.

Lemma check_gene_validity_trace_witness :
  events (check_gene_validity (always Unreachable) None (Some (AStr "Pdyn")) None)
  = [ Print ("access " +:+ (URL_PREFIX +:+ "genes[acronym$eq'Pdyn']" +:+ URL_INCLUDE)
             +:+ "...");
      HttpGet (URL_PREFIX +:+ "genes[acronym$eq'Pdyn']" +:+ URL_INCLUDE) ].
Proof.
  apply (check_gene_validity_trace (always Unreachable) None (Some (AStr "Pdyn")) None).
  reflexivity.
Defined.

Lemma check_gene_validity_errors_witness :
  outcome (check_gene_validity (always Unreachable) (Some (AInt 18376)) None None)
  = Raised ConnectionError /\
  outcome (check_gene_validity (always (Reply 200 None)) (Some (AInt 18376)) None None)
  = Raised ParseError /\
  outcome (check_gene_validity (always (Reply 200 (Some bare))) (Some (AInt 18376)) None None)
  = Raised (KeyError "total_rows").
Proof.
  split; [| split].
  - apply (proj1 (check_gene_validity_errors (always Unreachable)
                    (Some (AInt 18376)) None None _ eq_refl)).
    reflexivity.
  - apply (proj1 (proj2 (check_gene_validity_errors (always (Reply 200 None))
                           (Some (AInt 18376)) None None _ eq_refl)) 200).
    reflexivity.
  - apply (proj2 (proj2 (check_gene_validity_errors (always (Reply 200 (Some bare)))
                           (Some (AInt 18376)) None None _ eq_refl)) 200 bare);
      reflexivity.
Defined.

Lemma check_gene_validity_ignores_status_witness :
  check_gene_validity (always (Reply 500 (Some (Response_of "1" [Pdyn]))))
    (Some (AInt 18376)) None None
  = check_gene_validity (always (Reply 200 (Some (Response_of "1" [Pdyn]))))
      (Some (AInt 18376)) None None.
Proof.
  apply (check_gene_validity_ignores_status
           (always (Reply 500 (Some (Response_of "1" [Pdyn])))) (Some (AInt 18376)) None None
           (always (Reply 200 (Some (Response_of "1" [Pdyn]))))
           (URL_PREFIX +:+ "genes[id$eq18376]" +:+ URL_INCLUDE)
           500 200 (Some (Response_of "1" [Pdyn])));
    reflexivity.
Defined.

(** ** More on the gene lookup *)

Lemma collect_quiet (root : Element) (attr_list : list string) :
  forall gene_info : gmap string value,
    requested (events (collect root attr_list gene_info)) = [] /\
    warned (events (collect root attr_list gene_info)) = [].
Proof.
  induction attr_list as [| attr rest IH]; intros gene_info; [split; reflexivity |].
  rewrite collect_step.
  destruct (_get_single_gene_attribute root attr); [| apply IH].
  cbn. apply IH.
Qed.

(** The entry of every attribute after the loop. *)
Lemma collect_lookup (root : Element) (attr_list : list string)
    (gene_info : gmap string value) (t : list event) (d : gmap string value) :
  collect root attr_list gene_info = (t, Returned d) ->
  forall attr,
    d !! attr
    = if in_dec string_dec attr attr_list
      then match _get_single_gene_attribute root attr with
           | Returned v => Some v
           | Raised _ => gene_info !! attr
           end
      else gene_info !! attr.
Proof.
  intros Hrun attr.
  destruct (collect_run root attr_list gene_info) as (t0 & d0 & H0 & Hknown & Hunknown & _).
  rewrite H0 in Hrun. injection Hrun as _ <-.
  destruct (in_dec string_dec attr attr_list) as [Hin | Hout].
  - destruct (_get_single_gene_attribute root attr) as [e | v] eqn:Hattr.
    + apply single_attribute_raises in Hattr as [Hnone _]. auto.
    + eauto.
  - exact (collect_frame root attr attr_list Hout _ _ _ H0).
Qed.

Section lookup_more.

Variable net : string -> reply Element.
Variables gene_id gene_acronym gene_name : option atom.

Local Abbreviation check := (check_gene_validity net gene_id gene_acronym gene_name).
Local Abbreviation lookup := (get_gene_info net gene_id gene_acronym gene_name).

Lemma lookup_raised (attributes : strs) (t : list event) (e : exn) :
  check = (t, Raised e) -> lookup attributes = (t, Raised e).
Proof. intros H. unfold get_gene_info. rewrite H. reflexivity. Qed.

Lemma lookup_invalid (attributes : strs) (t : list event) (root : Element) :
  check = (t, Returned (false, root)) -> exists e, lookup attributes = (t, Raised e).
Proof.
  intros H. unfold get_gene_info. rewrite H.
  assert (Hpure : exists r, first_given [gene_id; gene_acronym; gene_name] = ([], r)).
  { unfold first_given. destruct (omap _ _); eexists; reflexivity. }
  destruct Hpure as [[e | item] Hitem]; cbn -[first_given]; rewrite Hitem; cbn;
    rewrite app_nil_r; eexists; reflexivity.
Qed.

Lemma lookup_list (attributes : strs) (attr_list : list string)
    (t : list event) (root : Element) :
  check = (t, Returned (true, root)) ->
  (if is_all attributes then Many GENE_ATTRIBUTES else attributes) = Many attr_list ->
  exists t' d,
    collect root attr_list ∅ = (t', Returned d) /\
    lookup attributes = (t ++ t', Returned (Mapping d)).
Proof.
  intros H Hlist.
  destruct (collect_run root attr_list ∅) as (t' & d & Hrun & _).
  exists t', d. split; [assumption |].
  unfold get_gene_info. rewrite H. cbn. rewrite Hlist, Hrun. cbn.
  rewrite app_nil_r. reflexivity.
Qed.

Lemma lookup_single (attr : string) (t : list event) (root : Element) :
  check = (t, Returned (true, root)) ->
  attr <> "all" ->
  lookup (One attr)
  = (t, match _get_single_gene_attribute root attr with
        | Returned v => Returned (Single v)
        | Raised e => Raised e
        end).
Proof.
  intros H Hattr. unfold get_gene_info. rewrite H. cbn.
  apply String.eqb_neq in Hattr. rewrite Hattr.
  destruct (_get_single_gene_attribute root attr); cbn; rewrite app_nil_r; reflexivity.
Qed.

(** X11.  The lookup honours the same precedence as the validator: with
    an id given, acronym and name change nothing, not even the error
    message; with no id and an acronym given, the name changes nothing. *)
Theorem get_gene_info_first_parameter_wins (attributes : strs) :
  (forall i : atom,
     get_gene_info net (Some i) gene_acronym gene_name attributes
     = get_gene_info net (Some i) None None attributes) /\
  (forall a : atom,
     get_gene_info net None (Some a) gene_name attributes
     = get_gene_info net None (Some a) None attributes).
Proof.
  split; intros x; unfold get_gene_info.
  - change (check_gene_validity net (Some x) gene_acronym gene_name)
      with (check_gene_validity net (Some x) None None).
    destruct (check_gene_validity net (Some x) None None) as [t [e | [[] root]]];
      [reflexivity | reflexivity |].
    destruct gene_acronym, gene_name; reflexivity.
  - change (check_gene_validity net None (Some x) gene_name)
      with (check_gene_validity net None (Some x) None).
    destruct (check_gene_validity net None (Some x) None) as [t [e | [[] root]]];
      [reflexivity | reflexivity |].
    destruct gene_name; reflexivity.
Qed.

(** X12.  The mapping of a list lookup holds exactly the attributes of
    the list that have a match, each with the value the single extraction
    gives; no other key is present. *)
Theorem get_gene_info_mapping_keys (attributes : strs) (attr_list : list string)
    (t t' : list event) (root : Element) (d : gmap string value) :
  check = (t, Returned (true, root)) ->
  (if is_all attributes then Many GENE_ATTRIBUTES else attributes) = Many attr_list ->
  lookup attributes = (t', Returned (Mapping d)) ->
  forall attr v,
    d !! attr = Some v <->
    In attr attr_list /\ _get_single_gene_attribute root attr = Returned v.
Proof.
  intros H Hlist Hrun attr v.
  destruct (lookup_list attributes attr_list t root H Hlist) as (t0 & d0 & Hc & Hl).
  rewrite Hl in Hrun. injection Hrun as _ <-.
  rewrite (collect_lookup root attr_list ∅ t0 d0 Hc attr), lookup_empty.
  destruct (in_dec string_dec attr attr_list) as [Hin | Hout].
  - destruct (_get_single_gene_attribute root attr) as [e | v0].
    + split; [discriminate | intros [_ Hv]; discriminate Hv].
    + split; [intros [= ->]; auto | intros [_ [= ->]]; reflexivity].
  - split; [discriminate | intros [Hin _]; contradiction].
Qed.

(** X13.  The mapping depends only on which attributes are asked for:
    two lists of plain tag names with the same members, in any order and
    with any repetition, give the same mapping. *)
Theorem get_gene_info_order_irrelevant (l l' : list string)
    (t : list event) (root : Element) :
  check = (t, Returned (true, root)) ->
  forallb plain_tag l = true ->
  forallb plain_tag l' = true ->
  (forall attr, In attr l <-> In attr l') ->
  exists d,
    outcome (lookup (Many l)) = Returned (Mapping d) /\
    outcome (lookup (Many l')) = Returned (Mapping d).
Proof.
  intros H _ _ Hsame.
  destruct (lookup_list (Many l) l t root H eq_refl) as (t1 & d1 & Hc1 & Hl1).
  destruct (lookup_list (Many l') l' t root H eq_refl) as (t2 & d2 & Hc2 & Hl2).
  exists d1. rewrite Hl1, Hl2. split; [reflexivity |].
  cbn. do 2 f_equal. apply map_eq. intros attr.
  rewrite (collect_lookup root l ∅ t1 d1 Hc1 attr),
          (collect_lookup root l' ∅ t2 d2 Hc2 attr).
  destruct (in_dec string_dec attr l) as [Hin | Hout],
           (in_dec string_dec attr l') as [Hin' | Hout']; try reflexivity.
  - destruct (Hout' (proj1 (Hsame attr) Hin)).
  - destruct (Hout (proj2 (Hsame attr) Hin')).
Qed.

(** X14.  A lookup sends the validator's request and no other: whatever
    the attributes asked for, the extraction works on the response already
    received. *)
Theorem get_gene_info_one_request (attributes : strs) (url : string) :
  gene_query_url gene_id gene_acronym gene_name = ([], Returned url) ->
  requested (events (lookup attributes)) = [url].
Proof.
  intros Hurl.
  pose proof (check_gene_validity_cases net gene_id gene_acronym gene_name url Hurl) as Hc.
  destruct check as [t [e | [[] root]]] eqn:Hcheck; injection Hc as -> Hout.
  - rewrite (lookup_raised attributes _ e Hcheck). reflexivity.
  - destruct (if is_all attributes then Many GENE_ATTRIBUTES else attributes)
      as [attr | attr_list] eqn:Hlist.
    + assert (attributes = One attr /\ attr <> "all") as [-> Hattr].
      { destruct attributes as [a | ?]; cbn in Hlist.
        - destruct (String.eqb_spec a "all"); [discriminate |].
          injection Hlist as <-. split; [reflexivity | assumption].
        - discriminate. }
      rewrite (lookup_single attr _ root Hcheck Hattr). reflexivity.
    + destruct (lookup_list attributes attr_list _ root Hcheck Hlist)
        as (t' & d & Hrun & ->).
      cbn [events fst]. rewrite requested_app.
      destruct (collect_quiet root attr_list ∅) as [Hq _].
      rewrite Hrun in Hq. cbn [events fst] in Hq. rewrite Hq. reflexivity.
  - destruct (lookup_invalid attributes _ root Hcheck) as [e ->]. reflexivity.
Qed.

(** X15.  The lookup returns a value only for a gene the validator found:
    whenever it returns, the validator returned [True]. *)
Theorem get_gene_info_returns_only_valid (attributes : strs) (r : info) :
  outcome (lookup attributes) = Returned r ->
  exists t root, check = (t, Returned (true, root)).
Proof.
  destruct check as [t [e | [[] root]]] eqn:Hcheck.
  - rewrite (lookup_raised attributes t e Hcheck). discriminate.
  - intros _. exists t, root. reflexivity.
  - destruct (lookup_invalid attributes t root Hcheck) as [e ->]. discriminate.
Qed.

End lookup_more.

(** ** More on the extraction *)

(** The attribute is looked up below the gene records. *)
Lemma findall_gene_path (root : Element) (attr : string) :
  findall root (gene_path attr)
  = fold_left (fun selected name => select_children name selected)
      (split_path attr "") (findall root genes_path).
Proof. reflexivity. Qed.

Lemma tag_char_not_slash (c : ascii) : is_tag_char c = true -> Ascii.eqb c "/" = false.
Proof. destruct c as [[] [] [] [] [] [] [] []]; vm_compute; congruence. Qed.

Lemma split_path_plain (name : string) :
  forall cur, all_chars is_tag_char name = true -> split_path name cur = [cur +:+ name].
Proof.
  induction name as [| c name IH]; intros cur Hname.
  - rewrite append_nil_r. reflexivity.
  - simpl in Hname. apply andb_true_iff in Hname as [Hc Hname].
    simpl. rewrite (tag_char_not_slash c Hc), (IH _ Hname), append_assoc.
    reflexivity.
Qed.

(** For a plain tag the matches are the children with that tag of the gene
    records, in document order. *)
Lemma findall_plain_attribute (root : Element) (attr : string) :
  plain_tag attr = true ->
  findall root (gene_path attr) = select_children attr (findall root genes_path).
Proof.
  intros [_ Hattr]%andb_true_iff.
  rewrite findall_gene_path, (split_path_plain attr "" Hattr). reflexivity.
Qed.

(** X16.  On a response without gene records, for instance the one of a
    query without rows, every attribute is unknown: the extraction raises
    [AttributeError] for every name that is a plain tag. *)
Theorem no_gene_records_no_attributes (root : Element) (attr : string) :
  plain_tag attr = true ->
  findall root genes_path = [] ->
  _get_single_gene_attribute root attr
  = Raised (AttributeError ("There is no gene attribute called " +:+ attr)).
Proof.
  intros Hattr Hnone. apply single_attribute_unknown.
  rewrite (findall_plain_attribute root attr Hattr), Hnone. reflexivity.
Qed.

Lemma no_gene_records_no_attributes_witness :
  _get_single_gene_attribute no_rows "id"
  = Raised (AttributeError "There is no gene attribute called id").
Proof. apply (no_gene_records_no_attributes no_rows "id"); reflexivity. Defined.

(** *** Reading back a decimal numeral *)

Lemma rev_app_chars (P : ascii -> bool) (s acc : string) :
  all_chars P (String.rev_app s acc) = all_chars P s && all_chars P acc.
Proof.
  revert acc. induction s as [| c s IH]; intros acc; [reflexivity |].
  simpl. rewrite IH. simpl.
  destruct (P c), (all_chars P s), (all_chars P acc); reflexivity.
Qed.

Lemma rev_app_rev_app (s a b : string) :
  String.rev_app (String.rev_app s a) b = String.rev_app a (s +:+ b).
Proof.
  revert a b. induction s as [| c s IH]; intros a b; [reflexivity |].
  simpl String.rev_app at 2. rewrite IH. reflexivity.
Qed.

Lemma skip_spaces_id (s : string) :
  all_chars (fun c => negb (is_c_space c)) s = true -> skip_spaces s = s.
Proof.
  destruct s as [| c s]; [reflexivity |].
  simpl. intros [Hc _]%andb_true_iff.
  apply negb_true_iff in Hc. rewrite Hc. reflexivity.
Qed.

Lemma trim_spaces_id (s : string) :
  all_chars (fun c => negb (is_c_space c)) s = true -> trim_spaces s = s.
Proof.
  intros Hs. unfold trim_spaces, String.rev.
  rewrite (skip_spaces_id s Hs), skip_spaces_id.
  - rewrite rev_app_rev_app. simpl. apply append_nil_r.
  - rewrite rev_app_chars, Hs. reflexivity.
Qed.

Lemma numeral_not_space (c : ascii) : is_numeral c = true -> negb (is_c_space c) = true.
Proof. destruct c as [[] [] [] [] [] [] [] []]; vm_compute; congruence. Qed.

Lemma digits_cons (c : ascii) (acc : Z) (after_digit : bool) (r : string) :
  is_digit c = true ->
  digits acc after_digit (String c r) = digits (10 * acc + (code c - 48)) true r.
Proof. intros Hc. simpl. rewrite Hc. reflexivity. Qed.

Lemma digits_decimal (d : Decimal.uint) :
  forall (acc : Z) (after_digit : bool),
    d <> Decimal.Nil \/ after_digit = true ->
    digits acc after_digit (NilEmpty.string_of_uint d) = Some (decimal_value acc d).
Proof.
  induction d; intros acc after_digit Hd;
    try (simpl NilEmpty.string_of_uint; rewrite digits_cons by reflexivity;
         rewrite IHd by (right; reflexivity); simpl decimal_value; do 2 f_equal;
         match goal with |- context [code ?c - 48] =>
           let k := eval vm_compute in (code c - 48) in
           change (code c - 48) with k
         end; lia).
  destruct Hd as [Hd | ->]; [destruct (Hd eq_refl) | reflexivity].
Qed.

Lemma of_uint_acc_decimal (d : Decimal.uint) :
  forall p : positive, Z.pos (Pos.of_uint_acc d p) = decimal_value (Z.pos p) d.
Proof.
  induction d; intros p; simpl; try reflexivity; rewrite IHd; f_equal; lia.
Qed.

Lemma of_uint_decimal (d : Decimal.uint) : Z.of_uint d = decimal_value 0 d.
Proof.
  unfold Z.of_uint.
  induction d; simpl; try reflexivity; try exact IHd;
    rewrite of_uint_acc_decimal; reflexivity.
Qed.

Lemma parse_uint (d : Decimal.uint) :
  d <> Decimal.Nil ->
  parse_int (NilEmpty.string_of_uint d) = Some (Z.of_uint d) /\
  parse_int (String "-" (NilEmpty.string_of_uint d)) = Some (- Z.of_uint d).
Proof.
  intros Hd.
  assert (Hs : all_chars (fun c => negb (is_c_space c)) (NilEmpty.string_of_uint d) = true).
  { apply (all_chars_weaken is_digit); [| apply uint_digits].
    intros c Hc. apply numeral_not_space, digit_numeral, Hc. }
  unfold parse_int. rewrite !trim_spaces_id by (simpl; rewrite ?Hs; reflexivity).
  rewrite of_uint_decimal. split.
  - rewrite <- (digits_decimal d 0 false (or_introl Hd)).
    destruct d; reflexivity.
  - rewrite (digits_decimal d 0 false (or_introl Hd)). reflexivity.
Qed.

Lemma parse_int_str_int (z : Z) : parse_int (str_int z) = Some z.
Proof.
  unfold str_int.
  destruct (to_int_proper z) as [Hpos Hneg].
  rewrite <- (DecimalZ.of_to z) at 2.
  destruct (Z.to_int z) as [d | d].
  - assert (Hd : d <> Decimal.Nil) by congruence.
    replace (NilZero.string_of_int (Decimal.Pos d)) with (NilEmpty.string_of_uint d)
      by (destruct d; try reflexivity; destruct (Hd eq_refl)).
    apply parse_uint, Hd.
  - assert (Hd : d <> Decimal.Nil) by congruence.
    replace (NilZero.string_of_int (Decimal.Neg d))
      with (String "-" (NilEmpty.string_of_uint d))
      by (destruct d; try reflexivity; destruct (Hd eq_refl)).
    apply parse_uint, Hd.
Qed.

(** X17.  An attribute whose text is the decimal form of an integer comes
    back as that integer: writing a number with [str] and extracting it is
    the identity, for negative numbers and zero too. *)
Theorem integer_attribute_round_trip (root : Element) (attr : string)
    (e : Element) (rest : list Element) (z : Z) :
  findall root (gene_path attr) = e :: rest ->
  text e = Some (str_int z) ->
  _get_single_gene_attribute root attr = Returned (VInt z).
Proof.
  intros Hfind Htext.
  rewrite (single_attribute_first root attr e rest Hfind), Htext, parse_int_str_int.
  reflexivity.
Qed.

Lemma integer_attribute_round_trip_witness :
  _get_single_gene_attribute (Response_of "1" [Pdyn]) "id" = Returned (VInt 18376).
Proof.
  apply (integer_attribute_round_trip (Response_of "1" [Pdyn]) "id"
           (leaf "id" (Some "18376")) [] 18376); reflexivity.
Defined.

(** X18.  What a result tells about the response: an integer is the
    number the first match's text denotes, a string is that text itself and
    it is not a numeral, and [None] means that the first match exists and
    has no text (an unknown attribute never gives [None]). *)
Theorem single_attribute_result (root : Element) (attr : string) (v : value) :
  _get_single_gene_attribute root attr = Returned v ->
  exists e rest,
    findall root (gene_path attr) = e :: rest /\
    match v with
    | VInt z => exists s, text e = Some s /\ parse_int s = Some z
    | VStr s => text e = Some s /\ parse_int s = None
    | VNone => text e = None
    end.
Proof.
  intros Hv.
  destruct (findall root (gene_path attr)) as [| e rest] eqn:Hfind.
  - rewrite (single_attribute_unknown root attr Hfind) in Hv. discriminate.
  - rewrite (single_attribute_first root attr e rest Hfind) in Hv.
    exists e, rest. split; [reflexivity |].
    destruct (text e) as [s |]; [| injection Hv as <-; reflexivity].
    destruct (parse_int s) as [z |] eqn:Hs; injection Hv as <-; eauto.
Qed.

Lemma single_attribute_result_witness :
  exists e rest,
    findall (Response_of "1" [Pdyn]) (gene_path "alias-tags") = e :: rest /\
    text e = None.
Proof.
  apply (single_attribute_result (Response_of "1" [Pdyn]) "alias-tags" VNone).
  reflexivity.
Defined.

Section lookup_forms.

Variable net : string -> reply Element.
Variables gene_id gene_acronym gene_name : option atom.

Local Abbreviation check := (check_gene_validity net gene_id gene_acronym gene_name).
Local Abbreviation lookup := (get_gene_info net gene_id gene_acronym gene_name).

(** X19.  Asking for one attribute by name and asking for the list that
    holds only that name agree: the single form returns [v] exactly when
    the list form returns the mapping with the one entry [attr: v], and the
    single form raises [AttributeError] exactly when the list form returns
    the empty mapping. *)
Theorem get_gene_info_single_and_list (attr : string) (t : list event) (root : Element) :
  check = (t, Returned (true, root)) ->
  attr <> "all" ->
  (forall v,
     outcome (lookup (One attr)) = Returned (Single v) <->
     outcome (lookup (Many [attr])) = Returned (Mapping {[attr := v]})) /\
  (outcome (lookup (One attr))
   = Raised (AttributeError ("There is no gene attribute called " +:+ attr)) <->
   outcome (lookup (Many [attr])) = Returned (Mapping ∅)).
Proof.
  intros H Hattr.
  rewrite (lookup_single net gene_id gene_acronym gene_name attr t root H Hattr).
  destruct (lookup_list net gene_id gene_acronym gene_name (Many [attr]) [attr] t root
              H eq_refl) as (t' & d & Hrun & ->).
  cbn [outcome snd].
  rewrite collect_step in Hrun. cbn [collect] in Hrun.
  pose (entry := fun r : result info =>
                   match r with Returned (Mapping m) => m !! attr | _ => None end).
  destruct (_get_single_gene_attribute root attr) as [e | v0] eqn:Hsingle.
  - apply single_attribute_raises in Hsingle as [_ ->].
    cbn in Hrun. injection Hrun as _ <-. split.
    + intros v. split; [discriminate |].
      intros Hd. apply (f_equal entry) in Hd. cbn in Hd.
      rewrite lookup_empty, lookup_singleton_eq in Hd. discriminate.
    + split; reflexivity.
  - injection Hrun as _ <-. rewrite insert_empty. split.
    + intros v. split; [intros [= ->]; reflexivity |].
      intros Hd. apply (f_equal entry) in Hd. cbn in Hd.
      rewrite !lookup_singleton_eq in Hd. injection Hd as ->. reflexivity.
    + split; [discriminate |].
      intros Hd. apply (f_equal entry) in Hd. cbn in Hd.
      rewrite lookup_empty, lookup_singleton_eq in Hd. discriminate.
Qed.

End lookup_forms.

Section executor_warning.

Variable net : string -> reply json.
Variables (dtype : string) (includes criteria attributes : option strs).
Variables (suffix : option string) (verbose : bool).

Local Abbreviation url := (query_url dtype includes criteria attributes suffix).
Local Abbreviation run :=
  (_make_api_query net dtype includes criteria attributes suffix verbose).

(** X20.  The executor warns at most once, with the message that names its
    URL, and a call that warned returns: the warning never comes with an
    exception. *)
Theorem make_api_query_warning :
  warned (events run) = [] \/
  (warned (events run) = [no_results url] /\ exists msg, outcome run = Returned msg).
Proof.
  rewrite make_api_query_cases.
  assert (Hpre : forall t,
            warned ((if verbose then [Print ("Querying " +:+ url +:+ "...")] else [])
                    ++ HttpGet url :: t) = warned t)
    by (intros t; destruct verbose; reflexivity).
  destruct (net url) as [| status body]; cbn [events outcome fst snd];
    [left; apply Hpre |].
  destruct ((400 <=? status) && (status <? 600)); cbn [events outcome fst snd];
    [left; apply Hpre |].
  destruct body as [info |]; cbn [events outcome fst snd]; [| left; apply Hpre].
  rewrite Hpre. unfold check_envelope, getitem, get.
  destruct info as [| | | | | o]; try (left; reflexivity).
  destruct (o !! "success") as [success |]; [| left; reflexivity]. cbn.
  destruct (truthy success); [| left; reflexivity]. cbn.
  destruct (o !! "total_rows") as [total_rows |]; [| left; reflexivity]. cbn.
  destruct (eq_int total_rows 0), (o !! "msg"); cbn; eauto.
Qed.

End executor_warning.

(** ** Instances *)

Lemma get_gene_info_mapping_keys_witness :
  (<["id" := VInt 18376]> ∅ : gmap string value) !! "id" = Some (VInt 18376) <->
  In "id" ["id"; "symbol"] /\
  _get_single_gene_attribute (Response_of "1" [Pdyn]) "id" = Returned (VInt 18376).
Proof.
  apply (get_gene_info_mapping_keys (answer (Response_of "1" [Pdyn]))
           (Some (AInt 18376)) None None (Many ["id"; "symbol"]) ["id"; "symbol"]
           [ Print ("access " +:+ (URL_PREFIX +:+ "genes[id$eq18376]" +:+ URL_INCLUDE)
                    +:+ "...");
             HttpGet (URL_PREFIX +:+ "genes[id$eq18376]" +:+ URL_INCLUDE) ]
           [ Print ("access " +:+ (URL_PREFIX +:+ "genes[id$eq18376]" +:+ URL_INCLUDE)
                    +:+ "...");
             HttpGet (URL_PREFIX +:+ "genes[id$eq18376]" +:+ URL_INCLUDE);
             Print (skipped "symbol") ]
           (Response_of "1" [Pdyn]) (<["id" := VInt 18376]> ∅));
    reflexivity.
Defined.

Lemma get_gene_info_order_irrelevant_witness :
  exists d,
    outcome (get_gene_info (answer (Response_of "1" [Pdyn])) (Some (AInt 18376)) None None
               (Many ["id"; "name"]))
    = Returned (Mapping d) /\
    outcome (get_gene_info (answer (Response_of "1" [Pdyn])) (Some (AInt 18376)) None None
               (Many ["name"; "id"; "id"]))
    = Returned (Mapping d).
Proof.
  apply (get_gene_info_order_irrelevant (answer (Response_of "1" [Pdyn]))
           (Some (AInt 18376)) None None ["id"; "name"] ["name"; "id"; "id"]
           _ (Response_of "1" [Pdyn]) eq_refl eq_refl eq_refl).
  intros attr. simpl. tauto.
Defined.

Lemma get_gene_info_one_request_witness :
  requested (events (get_gene_info (answer (Response_of "1" [Pdyn]))
                       (Some (AInt 18376)) None None (One "all")))
  = [URL_PREFIX +:+ "genes[id$eq18376]" +:+ URL_INCLUDE].
Proof.
  apply (get_gene_info_one_request (answer (Response_of "1" [Pdyn]))
           (Some (AInt 18376)) None None (One "all")).
  reflexivity.
Defined.

Lemma get_gene_info_returns_only_valid_witness :
  exists t root,
    check_gene_validity (answer (Response_of "1" [Pdyn])) (Some (AInt 18376)) None None
    = (t, Returned (true, root)).
Proof.
  apply (get_gene_info_returns_only_valid (answer (Response_of "1" [Pdyn]))
           (Some (AInt 18376)) None None (One "id") (Single (VInt 18376))).
  reflexivity.
Defined.

Lemma get_gene_info_single_and_list_witness :
  outcome (get_gene_info (answer (Response_of "1" [Pdyn])) (Some (AInt 18376)) None None
             (Many ["name"]))
  = Returned (Mapping {["name" := VStr " prodynorphin "]}) /\
  outcome (get_gene_info (answer (Response_of "1" [Pdyn])) (Some (AInt 18376)) None None
             (Many ["symbol"]))
  = Returned (Mapping ∅).
Proof.
  split.
  - apply (proj1 (get_gene_info_single_and_list (answer (Response_of "1" [Pdyn]))
                    (Some (AInt 18376)) None None "name" _ (Response_of "1" [Pdyn])
                    eq_refl ltac:(discriminate))).
    reflexivity.
  - apply (proj2 (get_gene_info_single_and_list (answer (Response_of "1" [Pdyn]))
                    (Some (AInt 18376)) None None "symbol" _ (Response_of "1" [Pdyn])
                    eq_refl ltac:(discriminate))).
    reflexivity.
Defined.
